(** * backend/server.js: the workout-logging service

    The Express handlers of [backend/server.js] as functions over an explicit
    store.  JavaScript values of the request are kept as they arrive (the
    handlers test falsiness, not types); the two tables that [createTables]
    declares are lists of rows together with the [SERIAL] sequences; every
    [pool.query] is the function its SQL text denotes on that store, with the
    column constraints the schema states.  The libraries the handlers call
    (bcryptjs, jsonwebtoken, the text rendering of node-postgres) and what
    the database server is configured with (its integer and JSONB input, its
    collation), none of which [server.js] fixes, are a record of functions
    the development is parametric in.

    Conventions: a string is a sequence of characters, one [ascii] each;
    INTEGER values are in [Z] and the sequences have no upper bound;
    [CURRENT_TIMESTAMP] is an argument [now] of the handlers that insert;
    logging ([console.error]) is left out. *)

From Stdlib Require Import ZArith String Ascii.
From Stdlib Require Import Floats.SpecFloat.
From stdpp Require Import base option list sorting gmap strings pretty.

Set Warnings "-register-all".
Local Open Scope Z_scope.

(** ** JavaScript values *)

Module JS.

(** What [express.json()] can put into a property of [req.body], plus
    [undefined], which reading an absent property yields.  Numbers are IEEE
    doubles. *)
Inductive jsval :=
| JUndefined
| JNull
| JBool (b : bool)
| JNumber (x : spec_float)
| JString (s : string)
| JArray (xs : list jsval)
| JObject (fields : list (string * jsval)).

(** [!!v]: the falsy values are undefined, null, false, +0, -0, NaN and the
    empty string. *)
Definition truthy (v : jsval) : bool :=
  match v with
  | JUndefined | JNull => false
  | JBool b => b
  | JNumber (S754_zero _) | JNumber S754_nan => false
  | JNumber _ => true
  | JString s => negb (String.eqb s "")
  | JArray _ | JObject _ => true
  end.

(** [Array.isArray(v)] *)
Definition isArray (v : jsval) : bool :=
  match v with JArray _ => true | _ => false end.

(** [obj.k] for an own property [k] of a parsed JSON object. *)
Definition prop (k : string) (obj : gmap string jsval) : jsval :=
  default JUndefined (obj !! k).

(** [s.split(sep)] for a separator of one character: the pieces between
    the occurrences of [sep], empty pieces included. *)
Fixpoint split (sep : ascii) (s : string) : list string :=
  match s with
  | EmptyString => [EmptyString]
  | String c rest =>
      if Ascii.eqb c sep then EmptyString :: split sep rest
      else match split sep rest with
           | piece :: pieces => String c piece :: pieces
           | [] => [String c EmptyString]
           end
  end.

(** Whether the character [c] occurs in [s]. *)
Fixpoint occurs (c : ascii) (s : string) : bool :=
  match s with
  | EmptyString => false
  | String c' rest => Ascii.eqb c' c || occurs c rest
  end.

End JS.
Export JS.

(** ** The store: PostgreSQL with the schema of [createTables] *)

Module Pg.

(** The SQLSTATE classes the statements of this service can raise. *)
Inductive sqlstate :=
| string_data_right_truncation
| numeric_value_out_of_range
| invalid_text_representation
| character_not_in_repertoire
| not_null_violation
| foreign_key_violation
| unique_violation.

Definition sqlstate_code (c : sqlstate) : string :=
  match c with
  | string_data_right_truncation => "22001"
  | numeric_value_out_of_range => "22003"
  | invalid_text_representation => "22P02"
  | character_not_in_repertoire => "22021"
  | not_null_violation => "23502"
  | foreign_key_violation => "23503"
  | unique_violation => "23505"
  end.

(** What an awaited call can throw into a handler's [catch]: a database
    error, which carries [.code], or some other [Error], which does not. *)
Inductive exn :=
| DatabaseError (c : sqlstate)
| OtherError.

Definition exn_code (e : exn) : option string :=
  match e with
  | DatabaseError c => Some (sqlstate_code c)
  | OtherError => None
  end.

Inductive res (A : Type) :=
| Ok (a : A)
| Throw (e : exn).
Arguments Ok {A} a.
Arguments Throw {A} e.

Definition res_bind {A B} (r : res A) (k : A → res B) : res B :=
  match r with
  | Ok a => k a
  | Throw e => Throw e
  end.

(** [users]: id SERIAL PRIMARY KEY, username VARCHAR(50) UNIQUE NOT NULL,
    email VARCHAR(100) UNIQUE NOT NULL, password_hash VARCHAR(255) NOT NULL,
    created_at TIMESTAMP DEFAULT CURRENT_TIMESTAMP. *)
Record user_row := {
  u_id : Z;
  u_username : string;
  u_email : string;
  u_password_hash : string;
  u_created_at : Z
}.

(** [workouts]: id SERIAL PRIMARY KEY, user_id INTEGER REFERENCES users(id),
    exercise_id and exercise_name VARCHAR(100) NOT NULL, sets_data JSONB NOT
    NULL (the document as a row read from the table carries it),
    workout_timestamp VARCHAR(50) NOT NULL, created_at TIMESTAMP DEFAULT
    CURRENT_TIMESTAMP. *)
Record workout_row := {
  w_id : Z;
  w_user_id : Z;
  w_exercise_id : string;
  w_exercise_name : string;
  w_sets_data : jsval;
  w_workout_timestamp : string;
  w_created_at : Z
}.

(** The two tables in heap order and the last value of each SERIAL
    sequence. *)
Record db := {
  users : list user_row;
  users_id_seq : Z;
  workouts : list workout_row;
  workouts_id_seq : Z
}.

(** What [createTables] leaves on a fresh database. *)
Definition empty_db : db :=
  {| users := []; users_id_seq := 0; workouts := []; workouts_id_seq := 0 |}.

(** A statement runs on the store and returns rows or throws. *)
Definition stmt (A : Type) : Type := db → db * res A.

Fixpoint only_spaces (s : string) : bool :=
  match s with
  | EmptyString => true
  | String c rest => Ascii.eqb c " " && only_spaces rest
  end.

(** A text parameter as the server takes it in: the character U+0000 is
    refused. *)
Definition text_in (s : string) : res string :=
  if occurs "000" s
  then Throw (DatabaseError character_not_in_repertoire)
  else Ok s.

(** Assignment to a VARCHAR(n) column: a longer string is an error unless
    all excess characters are spaces, which are cut off. *)
Definition varchar (n : nat) (s : string) : res string :=
  if (String.length s <=? n)%nat then Ok s
  else if only_spaces (String.substring n (String.length s - n) s)
       then Ok (String.substring 0 n s)
       else Throw (DatabaseError string_data_right_truncation).

(** A column value: [None] is SQL NULL, which every type contains. *)
Definition column (ty : string → res string) (v : option string)
  : res (option string) :=
  match v with
  | None => Ok None
  | Some s => res_bind (ty s) (λ s', Ok (Some s'))
  end.

Definition not_null {A} (v : option A) : res A :=
  match v with
  | Some a => Ok a
  | None => Throw (DatabaseError not_null_violation)
  end.

Fixpoint skip_space (s : string) : string :=
  match s with
  | EmptyString => EmptyString
  | String c rest => if Ascii.is_space c then skip_space rest else s
  end.

Fixpoint read_digits (acc : Z) (s : string) : Z * string :=
  match s with
  | EmptyString => (acc, EmptyString)
  | String c rest =>
      match Ascii.is_nat c with
      | Some d => read_digits (10 * acc + Z.of_nat d) rest
      | None => (acc, s)
      end
  end.

Definition starts_with_digit (s : string) : bool :=
  match s with
  | String c _ => bool_decide (is_Some (Ascii.is_nat c))
  | EmptyString => false
  end.

(** The decimal reading of the text of an INTEGER parameter: optional
    blanks, an optional sign, decimal digits, optional blanks, and a value
    that fits 32 bits.  PostgreSQL up to version 15 reads exactly these
    texts; later versions read further forms.  The reader of the server at
    hand is [pg_int4in] below; this one serves as a sample of it. *)
Definition int4in (s : string) : res Z :=
  let s := skip_space s in
  let '(negative, s) :=
    match s with
    | String "-" rest => (true, rest)
    | String "+" rest => (false, rest)
    | _ => (false, s)
    end in
  if negb (starts_with_digit s)
  then Throw (DatabaseError invalid_text_representation)
  else
    let '(n, rest) := read_digits 0 s in
    match skip_space rest with
    | EmptyString =>
        let v := if negative then - n else n in
        if bool_decide (-2147483648 ≤ v ≤ 2147483647) then Ok v
        else Throw (DatabaseError numeric_value_out_of_range)
    | String _ _ => Throw (DatabaseError invalid_text_representation)
    end.

End Pg.
Export Pg.

(** ** The statements the handlers send *)

Module Sql.

#[global] Instance res_mbind : MBind res := λ A B k r, res_bind r k.

(** The object a [RETURNING id, username, email] row is, also built by hand
    in the login handler. *)
Record user_json := {
  id : Z;
  username : string;
  email : string
}.

Definition with_users (d : db) (rows : list user_row) (seq : Z) : db :=
  {| users := rows; users_id_seq := seq;
     workouts := workouts d; workouts_id_seq := workouts_id_seq d |}.

Definition with_workouts (d : db) (rows : list workout_row) (seq : Z) : db :=
  {| users := users d; users_id_seq := users_id_seq d;
     workouts := rows; workouts_id_seq := seq |}.

(** An INSERT goes through two stages.  First the parameters are taken in
    and assigned to their columns; an error there (a U+0000, a JSONB text
    the server refuses, a string too long for its VARCHAR) ends the statement
    before anything ran.  Then the statement runs: [nextval] gives out an
    id, and NOT NULL, the unique indexes and the foreign key are checked; an
    error there leaves the id used up. *)

(** A text parameter taken in and assigned to a VARCHAR(n) column. *)
Definition varchar_in (n : nat) (s : string) : res string :=
  s ← text_in s; varchar n s.

(** The three parameters of [INSERT INTO users] as taken in. *)
Definition user_values (username email password_hash : option string)
  : res (option string * option string * option string) :=
  username ← column text_in username;
  email ← column text_in email;
  password_hash ← column text_in password_hash;
  username ← column (varchar 50) username;
  email ← column (varchar 100) email;
  password_hash ← column (varchar 255) password_hash;
  Ok (username, email, password_hash).

(** The row [INSERT INTO users] adds, once [nextval] gave [new_id]: NOT
    NULL, then the two unique indexes. *)
Definition new_user_row (now new_id : Z) (rows : list user_row)
    (values : option string * option string * option string) : res user_row :=
  let '(username, email, password_hash) := values in
  username ← not_null username;
  email ← not_null email;
  password_hash ← not_null password_hash;
  if bool_decide (username ∈ u_username <$> rows)
  then Throw (DatabaseError unique_violation)
  else if bool_decide (email ∈ u_email <$> rows)
  then Throw (DatabaseError unique_violation)
  else Ok {| u_id := new_id; u_username := username; u_email := email;
             u_password_hash := password_hash; u_created_at := now |}.

(** [INSERT INTO users (username, email, password_hash) VALUES ($1, $2, $3)
    RETURNING id, username, email] *)
Definition insert_user (now : Z) (username email password_hash : option string)
  : stmt user_json := λ d,
  match user_values username email password_hash with
  | Throw e => (d, Throw e)
  | Ok values =>
      let new_id := users_id_seq d + 1 in
      match new_user_row now new_id (users d) values with
      | Ok row =>
          (with_users d (users d ++ [row]) new_id,
           Ok {| id := u_id row; username := u_username row;
                 email := u_email row |})
      | Throw e => (with_users d (users d) new_id, Throw e)
      end
  end.

(** [SELECT * FROM users WHERE email = $1]; a NULL parameter equals no
    row. *)
Definition select_users_by_email (email : option string) : stmt (list user_row) :=
  λ d,
  match email with
  | None => (d, Ok [])
  | Some e =>
      match text_in e with
      | Throw err => (d, Throw err)
      | Ok e => (d, Ok (filter (λ u, u_email u = e) (users d)))
      end
  end.

(** [ORDER BY workout_timestamp DESC] on a VARCHAR column, where [le] is
    how the collation of the database compares two strings: [a] may come
    before [b] when the timestamp of [b] is at most that of [a]. *)
Definition timestamp_desc (le : string → string → bool) (a b : workout_row)
  : Prop :=
  le (w_workout_timestamp b) (w_workout_timestamp a).

#[global] Instance timestamp_desc_dec le : RelDecision (timestamp_desc le).
Proof. intros a b. unfold timestamp_desc. apply _. Defined.

(** [SELECT * FROM workouts WHERE user_id = $1 ORDER BY workout_timestamp
    DESC] *)
Definition select_workouts (le : string → string → bool) (user_id : Z)
  : stmt (list workout_row) := λ d,
  (d, Ok (merge_sort (timestamp_desc le)
            (filter (λ w, w_user_id w = user_id) (workouts d)))).

(** The text parameters and the JSONB parameter of [INSERT INTO workouts]
    as taken in; [jsonb_in] is the JSONB input of the server. *)
Definition workout_values (jsonb_in : string → res jsval)
    (exercise_id exercise_name sets_data workout_timestamp : option string)
  : res (option string * option string * option jsval * option string) :=
  exercise_id ← column text_in exercise_id;
  exercise_name ← column text_in exercise_name;
  sets_data ← match sets_data with
              | None => Ok None
              | Some text => res_bind (jsonb_in text) (λ doc, Ok (Some doc))
              end;
  workout_timestamp ← column text_in workout_timestamp;
  exercise_id ← column (varchar 100) exercise_id;
  exercise_name ← column (varchar 100) exercise_name;
  workout_timestamp ← column (varchar 50) workout_timestamp;
  Ok (exercise_id, exercise_name, sets_data, workout_timestamp).

(** The row [INSERT INTO workouts] adds, once [nextval] gave [new_id]: NOT
    NULL, then the reference to [users(id)]. *)
Definition new_workout_row (now new_id : Z) (user_rows : list user_row)
    (user_id : Z)
    (values : option string * option string * option jsval * option string)
  : res workout_row :=
  let '(exercise_id, exercise_name, sets_data, workout_timestamp) := values in
  exercise_id ← not_null exercise_id;
  exercise_name ← not_null exercise_name;
  sets_data ← not_null sets_data;
  workout_timestamp ← not_null workout_timestamp;
  if bool_decide (user_id ∈ u_id <$> user_rows)
  then Ok {| w_id := new_id; w_user_id := user_id;
             w_exercise_id := exercise_id; w_exercise_name := exercise_name;
             w_sets_data := sets_data; w_workout_timestamp := workout_timestamp;
             w_created_at := now |}
  else Throw (DatabaseError foreign_key_violation).

(** [INSERT INTO workouts (user_id, exercise_id, exercise_name, sets_data,
    workout_timestamp) VALUES ($1, $2, $3, $4, $5) RETURNING *] *)
Definition insert_workout (jsonb_in : string → res jsval) (now : Z) (user_id : Z)
    (exercise_id exercise_name sets_data workout_timestamp : option string)
  : stmt workout_row := λ d,
  match workout_values jsonb_in exercise_id exercise_name sets_data
          workout_timestamp with
  | Throw e => (d, Throw e)
  | Ok values =>
      let new_id := workouts_id_seq d + 1 in
      match new_workout_row now new_id (users d) user_id values with
      | Ok row => (with_workouts d (workouts d ++ [row]) new_id, Ok row)
      | Throw e => (with_workouts d (workouts d) new_id, Throw e)
      end
  end.

(** The rows [WHERE id = $1 AND user_id = $2] selects. *)
Definition hit (i user_id : Z) (w : workout_row) : Prop :=
  w_id w = i ∧ w_user_id w = user_id.

#[global] Instance hit_dec i user_id w : Decision (hit i user_id w).
Proof. unfold hit. apply _. Defined.

(** [DELETE FROM workouts WHERE id = $1 AND user_id = $2 RETURNING *]; the
    first parameter arrives as the text of the path, which [int4] reads as
    the server does. *)
Definition delete_workout (int4 : string → res Z) (id_text : string)
    (user_id : Z) : stmt (list workout_row) := λ d,
  match int4 id_text with
  | Throw e => (d, Throw e)
  | Ok i =>
      (with_workouts d (filter (λ w, ¬ hit i user_id w) (workouts d))
         (workouts_id_seq d),
       Ok (filter (hit i user_id) (workouts d)))
  end.

End Sql.
Export Sql.

(** ** The libraries and the HTTP surface *)

(** The calls into bcryptjs, jsonwebtoken and node-postgres, the signing
    secret of the environment, and the input functions and collation of the
    database server.  A library call that can throw gives [None] when it
    does.  [jwt_verify] gives the [userId] of the decoded payload, a
    [users.id] as [jwt_sign] embeds it.  [pg_jsonb_in] gives the document a
    row carries once the text was stored in a JSONB column. *)
Record Libs := {
  bcrypt_hash : jsval → Z → option string;
  bcrypt_compare : jsval → string → option bool;
  jwt_sign : Z → option string → string → option string;
  jwt_verify : string → option string → option Z;
  JWT_SECRET : option string;
  pg_text : jsval → string;
  JSON_stringify : jsval → string;
  pg_int4in : string → res Z;
  pg_jsonb_in : string → res jsval;
  pg_collate_le : string → string → bool
}.

(** What the handlers read of [req]: the authorization header, the object
    [express.json()] parsed into [req.body], and the [:id] of the path. *)
Record request := {
  headers_authorization : option string;
  body : gmap string jsval;
  params_id : string
}.

Definition with_body (req : request) (b : gmap string jsval) : request :=
  {| headers_authorization := headers_authorization req; body := b;
     params_id := params_id req |}.

(** The bodies the handlers send. *)
Inductive payload :=
| Error (error : string)
| Message (message : string)
| Auth (token : string) (user : user_json)
| Workouts (workouts : list workout_row)
| Workout (workout : workout_row).

Record response := {
  status : Z;
  json : payload
}.

(** [res.json(p)] and [res.status(c).json(p)] *)
Definition res_json (p : payload) : response := {| status := 200; json := p |}.
Definition res_status_json (c : Z) (p : payload) : response :=
  {| status := c; json := p |}.

Definition handler : Type := db → db * response.

Definition stmt_ret {A} (a : A) : stmt A := λ d, (d, Ok a).

Definition stmt_bind {A B} (m : stmt A) (k : A → stmt B) : stmt B := λ d,
  match m d with
  | (d', Ok a) => k a d'
  | (d', Throw e) => (d', Throw e)
  end.

(** A library call: it leaves the store alone, and what it throws is no
    database error. *)
Definition lift {A} (r : option A) : stmt A := λ d,
  match r with
  | Some a => (d, Ok a)
  | None => (d, Throw OtherError)
  end.

Notation "'await' x ← m ; k" := (stmt_bind m (λ x, k))
  (at level 10, x name, m at level 100, k at level 200, only parsing).

(** [try { body } catch (err) { handle(err) }] around a handler's body. *)
Definition try_catch (body : stmt response) (handle : exn → response) : handler :=
  λ d,
  match body d with
  | (d', Ok r) => (d', r)
  | (d', Throw err) => (d', handle err)
  end.

Section Server.

Context (L : Libs).

(** How node-postgres sends a parameter: undefined and null as NULL, a
    string as it is, anything else as the text the driver renders. *)
Definition prepareValue (v : jsval) : option string :=
  match v with
  | JUndefined | JNull => None
  | JString s => Some s
  | _ => Some (pg_text L v)
  end.

(** [req.headers.authorization?.split(' ')[1]] *)
Definition bearer_token (req : request) : jsval :=
  match headers_authorization req with
  | None => JUndefined
  | Some h => from_option JString JUndefined (split " " h !! 1%nat)
  end.

Definition authMiddleware (req : request) (next : Z → handler) : handler :=
  let token := bearer_token req in
  if negb (truthy token)
  then λ d, (d, res_status_json 401 (Error "No token provided"))
  else
    match token with
    | JString token =>
        match jwt_verify L token (JWT_SECRET L) with
        | Some userId => next userId
        | None => λ d, (d, res_status_json 401 (Error "Invalid token"))
        end
    | _ => λ d, (d, res_status_json 401 (Error "Invalid token"))
    end.

(** POST /api/auth/register *)
Definition register (now : Z) (req : request) : handler :=
  try_catch
    (let username := prop "username" (body req) in
     let email := prop "email" (body req) in
     let password := prop "password" (body req) in
     if negb (truthy username) || negb (truthy email) || negb (truthy password)
     then stmt_ret (res_status_json 400 (Error "All fields are required"))
     else
       await hashedPassword ← lift (bcrypt_hash L password 10);
       await row0 ← insert_user now (prepareValue username) (prepareValue email)
                      (Some hashedPassword);
       await token ← lift (jwt_sign L (id row0) (JWT_SECRET L) "7d");
       stmt_ret (res_json (Auth token row0)))
    (λ err,
       if decide (exn_code err = Some "23505")
       then res_status_json 400 (Error "Username or email already exists")
       else res_status_json 500 (Error "Registration failed")).

(** POST /api/auth/login *)
Definition login (req : request) : handler :=
  try_catch
    (let email := prop "email" (body req) in
     let password := prop "password" (body req) in
     await rows ← select_users_by_email (prepareValue email);
     match rows with
     | [] => stmt_ret (res_status_json 401 (Error "Invalid credentials"))
     | user :: _ =>
         await isValid ← lift (bcrypt_compare L password (u_password_hash user));
         if negb isValid
         then stmt_ret (res_status_json 401 (Error "Invalid credentials"))
         else
           await token ← lift (jwt_sign L (u_id user) (JWT_SECRET L) "7d");
           stmt_ret (res_json (Auth token
             {| id := u_id user; username := u_username user;
                email := u_email user |}))
     end)
    (λ err, res_status_json 500 (Error "Login failed")).

(** GET /api/workouts, behind [authMiddleware] *)
Definition get_workouts (userId : Z) : handler :=
  try_catch
    (await rows ← select_workouts (pg_collate_le L) userId;
     stmt_ret (res_json (Workouts rows)))
    (λ err, res_status_json 500 (Error "Failed to fetch workouts")).

(** POST /api/workouts, behind [authMiddleware] *)
Definition post_workouts (now : Z) (userId : Z) (req : request) : handler :=
  try_catch
    (let exercise_id := prop "exercise_id" (body req) in
     let exercise_name := prop "exercise_name" (body req) in
     let sets := prop "sets" (body req) in
     let workout_timestamp := prop "workout_timestamp" (body req) in
     if negb (truthy exercise_id) || negb (truthy exercise_name)
        || negb (truthy sets) || negb (isArray sets)
     then stmt_ret (res_status_json 400 (Error "Invalid workout data"))
     else
       let timestamp := workout_timestamp in
       await row0 ← insert_workout (pg_jsonb_in L) now userId
                      (prepareValue exercise_id) (prepareValue exercise_name)
                      (Some (JSON_stringify L sets)) (prepareValue timestamp);
       stmt_ret (res_json (Workout row0)))
    (λ err, res_status_json 500 (Error "Failed to add workout")).

(** DELETE /api/workouts/:id, behind [authMiddleware] *)
Definition delete_workouts (userId : Z) (req : request) : handler :=
  try_catch
    (await rows ← delete_workout (pg_int4in L) (params_id req) userId;
     if bool_decide (length rows = 0%nat)
     then stmt_ret (res_status_json 404 (Error "Workout not found"))
     else stmt_ret (res_json (Message "Workout deleted")))
    (λ err, res_status_json 500 (Error "Failed to delete workout")).

(** The five routes registered on [app], each with its middleware. *)
Inductive route :=
| POST_auth_register
| POST_auth_login
| GET_workouts
| POST_workouts
| DELETE_workouts_id.

Definition app_handle (now : Z) (r : route) (req : request) : handler :=
  match r with
  | POST_auth_register => register now req
  | POST_auth_login => login req
  | GET_workouts => authMiddleware req (λ userId, get_workouts userId)
  | POST_workouts => authMiddleware req (λ userId, post_workouts now userId req)
  | DELETE_workouts_id => authMiddleware req (λ userId, delete_workouts userId req)
  end.

End Server.

(** ** Integrity of the store *)

(** The constraints of the schema that hold of every store the service
    reaches: the primary keys, issued by the sequences; the two unique
    indexes of [users]; the reference of [workouts.user_id]. *)
Record db_ok (d : db) : Prop := {
  users_pkey : NoDup (u_id <$> users d);
  users_seq : ∀ u, u ∈ users d → u_id u ≤ users_id_seq d;
  users_username_key : NoDup (u_username <$> users d);
  users_email_key : NoDup (u_email <$> users d);
  workouts_pkey : NoDup (w_id <$> workouts d);
  workouts_seq : ∀ w, w ∈ workouts d → w_id w ≤ workouts_id_seq d;
  workouts_user_id_fkey : ∀ w, w ∈ workouts d → w_user_id w ∈ u_id <$> users d
}.

(** ** A concrete instance of the libraries, and sample requests *)

Module Demo.

Definition salted (s : string) : string := "$2a$10$" +:+ s.

(** [JSON.stringify] of a string: the quotes, and the escapes of the
    quote, the backslash and the control characters. *)
Definition hex_digit (n : N) : ascii :=
  if (n <? 10)%N then ascii_of_N (48 + n) else ascii_of_N (87 + n).

Definition quote_char (c : ascii) : string :=
  let n := N_of_ascii c in
  if (n =? 34)%N then String "092" (String "034" EmptyString)
  else if (n =? 92)%N then String "092" (String "092" EmptyString)
  else if (n =? 8)%N then String "092" "b"
  else if (n =? 9)%N then String "092" "t"
  else if (n =? 10)%N then String "092" "n"
  else if (n =? 12)%N then String "092" "f"
  else if (n =? 13)%N then String "092" "r"
  else if (n <? 32)%N
  then String "092" ("u00" +:+ String (hex_digit (n / 16))
                                (String (hex_digit (n mod 16)) EmptyString))
  else String c EmptyString.

Fixpoint quote_chars (s : string) : string :=
  match s with
  | EmptyString => EmptyString
  | String c rest => quote_char c +:+ quote_chars rest
  end.

Definition quote (s : string) : string :=
  String "034" (quote_chars s +:+ String "034" EmptyString).

(** The decimal text of a number that is an integer below 10^21 in
    absolute value; the sample requests carry no other number. *)
Definition integer_text (x : spec_float) : option string :=
  match x with
  | S754_zero _ => Some "0"
  | S754_finite sign m e =>
      let digits (n : Z) :=
        if bool_decide (n < 10 ^ 21)
        then Some ((if sign then "-" else "") +:+ pretty n) else None in
      if bool_decide (0 ≤ e) then digits (Z.pos m * 2 ^ e)
      else if bool_decide ((Z.pos m) `mod` 2 ^ (- e) = 0)
      then digits (Z.pos m / 2 ^ (- e))
      else None
  | _ => None
  end.

(** [JSON.stringify(v)] on values as [express.json()] parses them, with
    integers for numbers.  NaN and the infinities are written [null]; a
    property whose value is undefined is left out. *)
Fixpoint stringify (v : jsval) : string :=
  match v with
  | JUndefined | JNull => "null"
  | JBool b => if b then "true" else "false"
  | JNumber x => default "null" (integer_text x)
  | JString s => quote s
  | JArray xs => "[" +:+ String.concat "," (stringify <$> xs) +:+ "]"
  | JObject fields =>
      "{" +:+ String.concat ","
                (mjoin ((λ kv,
                           match kv with
                           | (_, JUndefined) => []
                           | (k, x) => [quote k +:+ ":" +:+ stringify x]
                           end) <$> fields)) +:+ "}"
  end.

(** The [sets] of the sample submission: one set of 5 repetitions with
    100. *)
Definition squat_sets : jsval :=
  JArray [JObject [("reps", JNumber (S754_finite false 5 0));
                   ("weight", JNumber (S754_finite false 100 0))]].

(** A sample of the server's JSONB input.  It reads the texts of the two
    documents the sample requests send, the empty array and [squat_sets];
    each denotes itself, the keys being in the order JSONB keeps them in.
    Any other text it reports as malformed. *)
Definition jsonb_in (text : string) : res jsval :=
  match filter (λ doc, stringify doc = text) [JArray []; squat_sets] with
  | doc :: _ => Ok doc
  | [] => Throw (DatabaseError invalid_text_representation)
  end.

(** bcryptjs refuses a password that is no string; the secret is set; the
    server reads decimal integers and compares strings by the codes of
    their characters (the C collation).  No sample request carries a value
    other than a string where the driver renders text, so [pg_text] is the
    text of [JSON.stringify] here, which is what the driver sends for a
    boolean, an integer and an object. *)
Definition libs : Libs := {|
  bcrypt_hash v rounds :=
    match v with JString s => Some (salted s) | _ => None end;
  bcrypt_compare v h :=
    match v with
    | JString s => Some (bool_decide (salted s = h))
    | _ => None
    end;
  jwt_sign userId secret expiresIn :=
    match secret with
    | None => None
    | Some _ => Some match userId with 1 => "jwt1" | 2 => "jwt2" | _ => "jwt" end
    end;
  jwt_verify token secret :=
    match token, secret with
    | String "j" (String "w" (String "t" rest)), Some _ =>
        match int4in rest with Ok userId => Some userId | Throw _ => None end
    | _, _ => None
    end;
  JWT_SECRET := Some "secret";
  pg_text := stringify;
  JSON_stringify := stringify;
  pg_int4in := int4in;
  pg_jsonb_in := jsonb_in;
  pg_collate_le := String.leb
|}.

(** The letters A to Z folded to lower case, and the case of a letter
    swapped. *)
Definition fold_case (c : ascii) : ascii :=
  let n := N_of_ascii c in
  if bool_decide (65 ≤ n ≤ 90)%N then ascii_of_N (n + 32) else c.

Definition swap_case (c : ascii) : ascii :=
  let n := N_of_ascii c in
  if bool_decide (65 ≤ n ≤ 90)%N then ascii_of_N (n + 32)
  else if bool_decide (97 ≤ n ≤ 122)%N then ascii_of_N (n - 32)
  else c.

Fixpoint string_map (f : ascii → ascii) (s : string) : string :=
  match s with
  | EmptyString => EmptyString
  | String c rest => String (f c) (string_map f rest)
  end.

(** A sample of a language collation, as en-US has it on letters: two
    strings are compared without regard to case first, and lower case comes
    first among strings that differ in case only. *)
Definition en_US_le (s1 s2 : string) : bool :=
  match String.compare (string_map fold_case s1) (string_map fold_case s2) with
  | Lt => true
  | Gt => false
  | Eq => String.leb (string_map swap_case s1) (string_map swap_case s2)
  end.

(** [libs] on a database created with that collation. *)
Definition libs_en_US : Libs := {|
  bcrypt_hash := bcrypt_hash libs;
  bcrypt_compare := bcrypt_compare libs;
  jwt_sign := jwt_sign libs;
  jwt_verify := jwt_verify libs;
  JWT_SECRET := JWT_SECRET libs;
  pg_text := pg_text libs;
  JSON_stringify := JSON_stringify libs;
  pg_int4in := pg_int4in libs;
  pg_jsonb_in := pg_jsonb_in libs;
  pg_collate_le := en_US_le
|}.

(** [libs] in an environment where JWT_SECRET is not set. *)
Definition libs_unset : Libs := {|
  bcrypt_hash := bcrypt_hash libs;
  bcrypt_compare := bcrypt_compare libs;
  jwt_sign := jwt_sign libs;
  jwt_verify := jwt_verify libs;
  JWT_SECRET := None;
  pg_text := pg_text libs;
  JSON_stringify := JSON_stringify libs;
  pg_int4in := pg_int4in libs;
  pg_jsonb_in := pg_jsonb_in libs;
  pg_collate_le := pg_collate_le libs
|}.

Definition json_request (fields : list (string * jsval)) : request :=
  {| headers_authorization := None; body := list_to_map fields;
     params_id := "" |}.

Definition alice : request :=
  json_request [("username", JString "alice"); ("email", JString "a@x.com");
                ("password", JString "pw123456")].

Definition bob : request :=
  json_request [("username", JString "bob"); ("email", JString "b@x.com");
                ("password", JString "hunter22")].

Definition squat : request :=
  json_request [("exercise_id", JString "squat");
                ("exercise_name", JString "Squat");
                ("sets", squat_sets);
                ("workout_timestamp", JString "2024-01-01T10:00:00")].

Definition delete_request (token id_text : string) : request :=
  {| headers_authorization := Some ("Bearer " +:+ token); body := ∅;
     params_id := id_text |}.

Definition long_name : request :=
  json_request
    [("username", JString "abcdefghijklmnopqrstuvwxyzabcdefghijklmnopqrstuvwxyz");
     ("email", JString "long@x.com"); ("password", JString "pw123456")].

Definition blank_username : request :=
  json_request [("username", JString ""); ("email", JString "c@x.com");
                ("password", JString "pw123456")].

Definition login_request (email password : string) : request :=
  json_request [("email", JString email); ("password", JString password)].

Definition no_sets : request :=
  json_request [("exercise_id", JString "squat");
                ("exercise_name", JString "Squat");
                ("workout_timestamp", JString "2024-01-01T10:00:00")].


Definition blank_exercise : request :=
  json_request [("exercise_id", JString "squat");
                ("exercise_name", JString "");
                ("sets", JArray []);
                ("workout_timestamp", JString "2024-01-01T10:00:00")].




Definition squat_row : workout_row :=
  {| w_id := 1; w_user_id := 1; w_exercise_id := "squat";
     w_exercise_name := "Squat"; w_sets_data := squat_sets;
     w_workout_timestamp := "2024-01-01T10:00:00"; w_created_at := 20 |}.

(** Two entries of one user whose timestamps are in the frontend's local
    format: the morning of the 9th and the morning of the 10th. *)
Definition local_format : db :=
  {| users := []; users_id_seq := 0;
     workouts :=
       [{| w_id := 1; w_user_id := 1; w_exercise_id := "squat";
           w_exercise_name := "Squat"; w_sets_data := JArray [];
           w_workout_timestamp := "10/1/2024, 8:00:00"; w_created_at := 0 |};
        {| w_id := 2; w_user_id := 1; w_exercise_id := "squat";
           w_exercise_name := "Squat"; w_sets_data := JArray [];
           w_workout_timestamp := "9/1/2024, 8:00:00"; w_created_at := 0 |}];
     workouts_id_seq := 2 |}.

(** A workout with nothing but a timestamp to tell it from the others, and
    four of them whose timestamps are one letter each. *)
Definition stamped (i : Z) (timestamp : string) : workout_row :=
  {| w_id := i; w_user_id := 1; w_exercise_id := "squat";
     w_exercise_name := "Squat"; w_sets_data := JArray [];
     w_workout_timestamp := timestamp; w_created_at := 0 |}.

Definition letters : db :=
  {| users := []; users_id_seq := 0;
     workouts := [stamped 1 "a"; stamped 2 "A"; stamped 3 "b"; stamped 4 "B"];
     workouts_id_seq := 4 |}.

(** Four more, with two timestamps of two letters. *)
Definition words : db :=
  {| users := []; users_id_seq := 0;
     workouts := [stamped 1 "a"; stamped 2 "A"; stamped 3 "ab"; stamped 4 "Aa"];
     workouts_id_seq := 4 |}.

(** The store after alice and bob registered and alice logged the squat. *)
Definition d1 : db := (register libs 5 alice empty_db).1.
Definition d2 : db := (register libs 10 bob d1).1.
Definition d3 : db := (post_workouts libs 20 1 squat d2).1.

End Demo.

(** ** Sequences of requests *)

(** The store after the service handled the requests [reqs] in order, each
    with the time at which it arrived. *)
Definition run (L : Libs) (reqs : list (Z * route * request)) (d : db) : db :=
  foldl (λ d '(now, r, req), (app_handle L now r req d).1) d reqs.

(** The widths the schema declares for the VARCHAR columns. *)
Record widths_ok (d : db) : Prop := {
  username_width : ∀ u, u ∈ users d → (String.length (u_username u) ≤ 50)%nat;
  email_width : ∀ u, u ∈ users d → (String.length (u_email u) ≤ 100)%nat;
  password_hash_width :
    ∀ u, u ∈ users d → (String.length (u_password_hash u) ≤ 255)%nat;
  exercise_id_width :
    ∀ w, w ∈ workouts d → (String.length (w_exercise_id w) ≤ 100)%nat;
  exercise_name_width :
    ∀ w, w ∈ workouts d → (String.length (w_exercise_name w) ≤ 100)%nat;
  workout_timestamp_width :
    ∀ w, w ∈ workouts d → (String.length (w_workout_timestamp w) ≤ 50)%nat
}.

(** [pieces.join(sep)] for a separator of one character. *)
Fixpoint join (sep : ascii) (pieces : list string) : string :=
  match pieces with
  | [] => EmptyString
  | [piece] => piece
  | piece :: rest => piece +:+ String sep (join sep rest)
  end.

(** * Properties *)

(** ** Ordering of the listing *)

Lemma StronglySorted_weaken {A} (R R' : relation A) (l : list A) :
  (∀ a b, R a b → R' a b) → StronglySorted R l → StronglySorted R' l.
Proof.
  intros HR. induction 1 as [|a l _ IH Hall]; constructor; [done|].
  eapply Forall_impl; eauto.
Qed.

Lemma get_workouts_rows L userId d :
  get_workouts L userId d =
    (d, res_json (Workouts (merge_sort (timestamp_desc (pg_collate_le L))
                              (filter (λ w, w_user_id w = userId) (workouts d))))).
Proof. reflexivity. Qed.

Lemma elem_of_listing le userId d w :
  w ∈ merge_sort (timestamp_desc le)
        (filter (λ w, w_user_id w = userId) (workouts d))
  ↔ w ∈ workouts d ∧ w_user_id w = userId.
Proof.
  rewrite merge_sort_Permutation, list_elem_of_filter. tauto.
Qed.

(** [String.leb] is the dictionary order on the codes of the characters. *)
Lemma leb_lexicographic c1 s1 c2 s2 :
  String.leb (String c1 s1) (String c2 s2) = true
  ↔ (N_of_ascii c1 < N_of_ascii c2)%N
    ∨ (c1 = c2 ∧ String.leb s1 s2 = true).
Proof.
  unfold String.leb. simpl. unfold Ascii.compare.
  destruct (N.compare_spec (N_of_ascii c1) (N_of_ascii c2)) as [Heq|Hlt|Hgt].
  - assert (c1 = c2) as ->.
    { rewrite <- (ascii_N_embedding c1), Heq. apply ascii_N_embedding. }
    split; [by right|]. intros [Hlt|[_ Hle]]; [lia|done].
  - split; [by left|done].
  - split; [done|]. intros [Hlt|[-> _]]; lia.
Qed.

(** C2, as the code has it: the listing of a user is exactly that user's
    rows, rearranged so that timestamps never increase along it, where two
    timestamps are compared as strings the way the collation of the database
    compares them (a total preorder), never as dates.  On a database with
    the C collation that is the order of the codes of the characters. *)
Theorem list_sorted_by_timestamp_string (L : Libs) (userId : Z) (d : db) :
  (∀ s1 s2, pg_collate_le L s1 s2 = true ∨ pg_collate_le L s2 s1 = true) →
  (∀ s1 s2 s3, pg_collate_le L s1 s2 = true → pg_collate_le L s2 s3 = true →
               pg_collate_le L s1 s3 = true) →
  ∃ rows,
    get_workouts L userId d = (d, res_json (Workouts rows))
    ∧ rows ≡ₚ filter (λ w, w_user_id w = userId) (workouts d)
    ∧ StronglySorted
        (λ a b, pg_collate_le L (w_workout_timestamp b) (w_workout_timestamp a)
                = true)
        rows
    ∧ (pg_collate_le L = String.leb →
       StronglySorted
         (λ a b, String.leb (w_workout_timestamp b) (w_workout_timestamp a)
                 = true)
         rows).
Proof.
  intros Htotal Htrans.
  assert (Transitive (timestamp_desc (pg_collate_le L))) as Htr.
  { intros a b c Hab Hbc. unfold timestamp_desc in *.
    apply Is_true_true. apply Is_true_true in Hab, Hbc. by eapply Htrans. }
  assert (Total (timestamp_desc (pg_collate_le L))) as Hto.
  { intros a b. unfold timestamp_desc.
    destruct (Htotal (w_workout_timestamp a) (w_workout_timestamp b))
      as [H|H]; apply Is_true_true in H; auto. }
  assert (StronglySorted
            (λ a b, pg_collate_le L (w_workout_timestamp b)
                      (w_workout_timestamp a) = true)
            (merge_sort (timestamp_desc (pg_collate_le L))
               (filter (λ w, w_user_id w = userId) (workouts d)))) as Hsorted.
  { eapply StronglySorted_weaken;
      [|apply (StronglySorted_merge_sort (timestamp_desc (pg_collate_le L)))].
    intros a b Hab. unfold timestamp_desc in Hab. by apply Is_true_true. }
  eexists. split; [apply get_workouts_rows|]. split; [|split].
  - apply merge_sort_Permutation.
  - exact Hsorted.
  - intros HC. eapply StronglySorted_weaken; [|exact Hsorted].
    intros a b. by rewrite HC.
Qed.

(** ** The auth gate *)

Lemma split_no_sep sep s : occurs sep s = false → JS.split sep s = [s].
Proof.
  induction s as [|c s IH]; simpl; [done|].
  destruct (Ascii.eqb c sep); simpl; [done|].
  intros Hs. by rewrite IH.
Qed.

Lemma split_at_sep sep s t :
  occurs sep s = false → JS.split sep (s +:+ String sep t) = s :: JS.split sep t.
Proof.
  induction s as [|c s IH]; simpl.
  - intros _. by rewrite Ascii.eqb_refl.
  - destruct (Ascii.eqb c sep); simpl; [done|].
    intros Hs. by rewrite IH.
Qed.

Lemma bearer_token_scheme req scheme token :
  headers_authorization req = Some (scheme +:+ String " " token) →
  occurs " " scheme = false → occurs " " token = false →
  bearer_token req = JString token.
Proof.
  intros Hh Hs Ht. unfold bearer_token. rewrite Hh.
  by rewrite split_at_sep, split_no_sep.
Qed.

(** C7: a request whose authorization header yields no token is answered
    401 "No token provided"; one whose token fails verification is answered
    401 "Invalid token"; in both cases the store is untouched and the handler
    does not run.  Otherwise the handler runs with the user id of the token.
    The token is the second blank-separated piece of the header: absent
    without a header, and [token] for the header "Bearer token". *)
Theorem authMiddleware_gate (L : Libs) (req : request) (next : Z → handler) (d : db) :
  (truthy (bearer_token req) = false →
     authMiddleware L req next d
     = (d, res_status_json 401 (Error "No token provided")))
  ∧ (∀ token, bearer_token req = JString token → token ≠ "" →
       (jwt_verify L token (JWT_SECRET L) = None →
          authMiddleware L req next d
          = (d, res_status_json 401 (Error "Invalid token")))
       ∧ (∀ userId, jwt_verify L token (JWT_SECRET L) = Some userId →
          authMiddleware L req next d = next userId d))
  ∧ (headers_authorization req = None → bearer_token req = JUndefined)
  ∧ (∀ token, headers_authorization req = Some ("Bearer " +:+ token) →
       occurs " " token = false → bearer_token req = JString token).
Proof.
  split; [|split; [|split]].
  - intros Hf. unfold authMiddleware. by rewrite Hf.
  - intros token Ht Hne. unfold authMiddleware. rewrite Ht. simpl.
    destruct (String.eqb_spec token ""); [done|]. simpl.
    split; [intros Hv|intros userId Hv]; by rewrite Hv.
  - intros Hh. unfold bearer_token. by rewrite Hh.
  - intros token Hh Ht.
    by apply (bearer_token_scheme req "Bearer" token).
Qed.

(** ** What the statements do to the tables *)

Lemma text_in_Ok s s' : text_in s = Ok s' → s' = s ∧ occurs "000" s = false.
Proof. unfold text_in. destruct (occurs _ s); [done|]. by intros [= <-]. Qed.

Lemma text_in_clean s : occurs "000" s = false → text_in s = Ok s.
Proof. unfold text_in. by intros ->. Qed.

Lemma varchar_in_Ok n s s' :
  varchar_in n s = Ok s' → occurs "000" s = false ∧ varchar n s = Ok s'.
Proof.
  unfold varchar_in. destruct (text_in s) as [s0|] eqn:E; simpl; [|done].
  apply text_in_Ok in E as [-> ?]. done.
Qed.

Lemma varchar_Throw n s e :
  varchar n s = Throw e → e = DatabaseError string_data_right_truncation.
Proof.
  unfold varchar. destruct (_ <=? _)%nat; [done|].
  destruct (only_spaces _); [done|]. by intros [= <-].
Qed.

Lemma user_values_Throw un em ph e :
  user_values un em ph = Throw e → exn_code e ≠ Some "23505".
Proof.
  unfold user_values, column, text_in.
  destruct un as [un|], em as [em|], ph as [ph|]; simpl;
    repeat match goal with
      | |- context [occurs ?c ?s] => destruct (occurs c s); simpl
      | |- context [varchar ?n ?s] =>
          let E := fresh "E" in
          destruct (varchar n s) eqn:E; simpl;
          [|apply varchar_Throw in E as ->]
      end; by intros [= <-].
Qed.

Lemma varchar_fits n s : (String.length s ≤ n)%nat → varchar n s = Ok s.
Proof.
  intros Hn. unfold varchar.
  by destruct (Nat.leb_spec (String.length s) n); [|lia].
Qed.

Lemma substring_length n s : (String.length (String.substring 0 n s) ≤ n)%nat.
Proof.
  revert s. induction n as [|n IH]; intros [|c s]; simpl; try lia.
  specialize (IH s). lia.
Qed.

Lemma varchar_width n s s' : varchar n s = Ok s' → (String.length s' ≤ n)%nat.
Proof.
  unfold varchar. destruct (Nat.leb_spec (String.length s) n).
  - by intros [= <-].
  - destruct (only_spaces _); [|done]. intros [= <-]. apply substring_length.
Qed.

Lemma column_width n v s' :
  column (varchar n) v = Ok (Some s') → (String.length s' ≤ n)%nat.
Proof.
  destruct v as [s|]; simpl; [|done].
  destruct (varchar n s) as [s0|] eqn:E; simpl; [|done].
  intros [= <-]. by apply (varchar_width n s).
Qed.

Lemma user_values_width un em ph un' em' ph' :
  user_values un em ph = Ok (Some un', Some em', Some ph') →
  (String.length un' ≤ 50)%nat ∧ (String.length em' ≤ 100)%nat
  ∧ (String.length ph' ≤ 255)%nat.
Proof.
  unfold user_values. intros H.
  destruct (column text_in un) as [un1|]; simpl in H; [|done].
  destruct (column text_in em) as [em1|]; simpl in H; [|done].
  destruct (column text_in ph) as [ph1|]; simpl in H; [|done].
  destruct (column (varchar 50) un1) as [un2|] eqn:E1; simpl in H; [|done].
  destruct (column (varchar 100) em1) as [em2|] eqn:E2; simpl in H; [|done].
  destruct (column (varchar 255) ph1) as [ph2|] eqn:E3; simpl in H; [|done].
  injection H as -> -> ->.
  repeat split; eapply column_width; eauto.
Qed.

Lemma workout_values_width jsonb_in eid ename sets ts eid' ename' doc ts' :
  workout_values jsonb_in eid ename sets ts
  = Ok (Some eid', Some ename', Some doc, Some ts') →
  (String.length eid' ≤ 100)%nat ∧ (String.length ename' ≤ 100)%nat
  ∧ (String.length ts' ≤ 50)%nat.
Proof.
  unfold workout_values. intros H.
  destruct (column text_in eid) as [eid1|]; simpl in H; [|done].
  destruct (column text_in ename) as [ename1|]; simpl in H; [|done].
  destruct (match sets with None => _ | Some _ => _ end) as [doc1|];
    simpl in H; [|done].
  destruct (column text_in ts) as [ts1|]; simpl in H; [|done].
  destruct (column (varchar 100) eid1) as [eid2|] eqn:E1; simpl in H; [|done].
  destruct (column (varchar 100) ename1) as [ename2|] eqn:E2;
    simpl in H; [|done].
  destruct (column (varchar 50) ts1) as [ts2|] eqn:E3; simpl in H; [|done].
  injection H as -> -> -> ->.
  repeat split; eapply column_width; eauto.
Qed.

Lemma new_workout_row_Ok now new_id user_rows user_id values row :
  new_workout_row now new_id user_rows user_id values = Ok row →
  w_id row = new_id ∧ w_user_id row = user_id ∧ w_created_at row = now
  ∧ values = (Some (w_exercise_id row), Some (w_exercise_name row),
              Some (w_sets_data row), Some (w_workout_timestamp row))
  ∧ user_id ∈ u_id <$> user_rows.
Proof.
  unfold new_workout_row. destruct values as [[[eid ename] sets] ts].
  intros H.
  destruct eid as [eid|]; simpl in H; [|done].
  destruct ename as [ename|]; simpl in H; [|done].
  destruct sets as [sets|]; simpl in H; [|done].
  destruct ts as [ts|]; simpl in H; [|done].
  case_bool_decide; [|done]. injection H as <-. simpl. done.
Qed.

Lemma new_user_row_Ok now new_id rows values row :
  new_user_row now new_id rows values = Ok row →
  u_id row = new_id ∧ u_created_at row = now
  ∧ values = (Some (u_username row), Some (u_email row),
              Some (u_password_hash row))
  ∧ (u_username row ∉ u_username <$> rows)
  ∧ (u_email row ∉ u_email <$> rows).
Proof.
  unfold new_user_row. destruct values as [[un em] ph]. intros H.
  destruct un as [un|]; simpl in H; [|done].
  destruct em as [em|]; simpl in H; [|done].
  destruct ph as [ph|]; simpl in H; [|done].
  repeat case_bool_decide; try done. injection H as <-. simpl. done.
Qed.

(** The handlers, with the [try]/[catch] and the awaits resolved. *)
Lemma post_workouts_cases L now userId req d :
  let exercise_id := prop "exercise_id" (body req) in
  let exercise_name := prop "exercise_name" (body req) in
  let sets := prop "sets" (body req) in
  post_workouts L now userId req d =
    if negb (truthy exercise_id) || negb (truthy exercise_name)
       || negb (truthy sets) || negb (isArray sets)
    then (d, res_status_json 400 (Error "Invalid workout data"))
    else
      match workout_values (pg_jsonb_in L)
              (prepareValue L exercise_id) (prepareValue L exercise_name)
              (Some (JSON_stringify L sets))
              (prepareValue L (prop "workout_timestamp" (body req))) with
      | Throw _ => (d, res_status_json 500 (Error "Failed to add workout"))
      | Ok values =>
          match new_workout_row now (workouts_id_seq d + 1) (users d) userId
                  values with
          | Ok row =>
              (with_workouts d (workouts d ++ [row]) (workouts_id_seq d + 1),
               res_json (Workout row))
          | Throw _ =>
              (with_workouts d (workouts d) (workouts_id_seq d + 1),
               res_status_json 500 (Error "Failed to add workout"))
          end
      end.
Proof.
  intros eid ename sets. unfold post_workouts, try_catch.
  fold eid ename sets.
  destruct (negb (truthy eid) || negb (truthy ename)
            || negb (truthy sets) || negb (isArray sets)); [done|].
  unfold stmt_bind, insert_workout, stmt_ret.
  destruct (workout_values _ _ _ _ _) as [values|]; [|done].
  by destruct (new_workout_row _ _ _ _ _).
Qed.

Lemma delete_workouts_cases L userId req d :
  delete_workouts L userId req d =
    match pg_int4in L (params_id req) with
    | Throw _ => (d, res_status_json 500 (Error "Failed to delete workout"))
    | Ok i =>
        (with_workouts d (filter (λ w, ¬ hit i userId w) (workouts d))
           (workouts_id_seq d),
         if bool_decide (filter (hit i userId) (workouts d) = [])
         then res_status_json 404 (Error "Workout not found")
         else res_json (Message "Workout deleted"))
    end.
Proof.
  unfold delete_workouts, try_catch, stmt_bind, delete_workout, stmt_ret.
  destruct (pg_int4in L (params_id req)) as [i|e]; [|done].
  destruct (filter (hit i userId) (workouts d)); done.
Qed.

Lemma with_workouts_same d : with_workouts d (workouts d) (workouts_id_seq d) = d.
Proof. by destruct d. Qed.

Lemma filter_none_hit {A} (P : A → Prop) `{∀ x, Decision (P x)} (l : list A) :
  filter P l = [] → filter (λ x, ¬ P x) l = l.
Proof.
  induction l as [|x l IH]; [done|].
  rewrite !filter_cons. destruct (decide (P x)); [done|].
  intros Hl. destruct (decide (¬ P x)); [|done]. by rewrite IH.
Qed.

Lemma register_cases L now req d :
  let username := prop "username" (body req) in
  let email := prop "email" (body req) in
  let password := prop "password" (body req) in
  register L now req d =
    if negb (truthy username) || negb (truthy email) || negb (truthy password)
    then (d, res_status_json 400 (Error "All fields are required"))
    else
      match bcrypt_hash L password 10 with
      | None => (d, res_status_json 500 (Error "Registration failed"))
      | Some hashedPassword =>
          match user_values (prepareValue L username) (prepareValue L email)
                  (Some hashedPassword) with
          | Throw _ => (d, res_status_json 500 (Error "Registration failed"))
          | Ok values =>
              match new_user_row now (users_id_seq d + 1) (users d) values with
              | Ok row =>
                  (with_users d (users d ++ [row]) (users_id_seq d + 1),
                   match jwt_sign L (u_id row) (JWT_SECRET L) "7d" with
                   | Some token =>
                       res_json (Auth token
                         {| id := u_id row; username := u_username row;
                            email := u_email row |})
                   | None => res_status_json 500 (Error "Registration failed")
                   end)
              | Throw e =>
                  (with_users d (users d) (users_id_seq d + 1),
                   if decide (exn_code e = Some "23505")
                   then res_status_json 400
                          (Error "Username or email already exists")
                   else res_status_json 500 (Error "Registration failed"))
              end
          end
      end.
Proof.
  intros un em pw. unfold register, try_catch. fold un em pw.
  destruct (negb (truthy un) || negb (truthy em) || negb (truthy pw)); [done|].
  unfold stmt_bind, lift, insert_user, stmt_ret.
  destruct (bcrypt_hash L pw 10) as [h|]; [|done].
  destruct (user_values _ _ _) as [values|e] eqn:Hv.
  - destruct (new_user_row _ _ _ _) as [row|]; [|done]. simpl.
    by destruct (jwt_sign L _ _ _).
  - apply user_values_Throw in Hv. by destruct (decide _).
Qed.

Lemma login_cases L req d :
  login L req d =
    (d,
     match prepareValue L (prop "email" (body req)) with
     | None => res_status_json 401 (Error "Invalid credentials")
     | Some e =>
         if occurs "000" e then res_status_json 500 (Error "Login failed")
         else
           match filter (λ u, u_email u = e) (users d) with
           | [] => res_status_json 401 (Error "Invalid credentials")
           | user :: _ =>
               match bcrypt_compare L (prop "password" (body req))
                       (u_password_hash user) with
               | None => res_status_json 500 (Error "Login failed")
               | Some false => res_status_json 401 (Error "Invalid credentials")
               | Some true =>
                   match jwt_sign L (u_id user) (JWT_SECRET L) "7d" with
                   | Some token =>
                       res_json (Auth token
                         {| id := u_id user; username := u_username user;
                            email := u_email user |})
                   | None => res_status_json 500 (Error "Login failed")
                   end
               end
           end
     end).
Proof.
  unfold login, try_catch, stmt_bind, select_users_by_email, text_in.
  destruct (prepareValue L (prop "email" (body req))) as [e|]; [|done].
  destruct (occurs "000" e); [done|].
  destruct (filter _ (users d)) as [|user rest]; [done|].
  unfold lift, stmt_ret.
  destruct (bcrypt_compare L _ _) as [[]|]; try done. simpl.
  by destruct (jwt_sign L _ _ _).
Qed.

(** ** The handlers keep the store well-formed *)

Lemma db_ok_empty : db_ok empty_db.
Proof. split; simpl; try constructor; intros ? []%elem_of_nil. Qed.

Lemma db_ok_bump_users d : db_ok d → db_ok (with_users d (users d) (users_id_seq d + 1)).
Proof.
  intros [? Hseq ? ? ? ? ?]. split; simpl; try done.
  intros u Hu. specialize (Hseq u Hu). lia.
Qed.

Lemma db_ok_bump_workouts d :
  db_ok d → db_ok (with_workouts d (workouts d) (workouts_id_seq d + 1)).
Proof.
  intros [? ? ? ? ? Hseq ?]. split; simpl; try done.
  intros w Hw. specialize (Hseq w Hw). lia.
Qed.

Lemma NoDup_snoc_fresh {A B} (f : A → B) (l : list A) (x : A) :
  NoDup (f <$> l) → f x ∉ (f <$> l) → NoDup (f <$> (l ++ [x])).
Proof.
  intros Hl Hx. rewrite fmap_app. apply NoDup_app. split; [done|]. split.
  - intros y Hy [->|[]%elem_of_nil]%elem_of_cons. done.
  - simpl. apply NoDup_singleton.
Qed.

Lemma register_db_ok L now req d : db_ok d → db_ok (register L now req d).1.
Proof.
  intros Hd. rewrite register_cases. cbv zeta.
  destruct (_ || _); [done|].
  destruct (bcrypt_hash L _ _) as [h|]; [|done].
  destruct (user_values _ _ _) as [values|]; [|done].
  destruct (new_user_row _ _ _ _) as [row|e] eqn:Hrow; simpl;
    [|by apply db_ok_bump_users].
  apply new_user_row_Ok in Hrow as (Hid & _ & _ & Hun & Hem).
  destruct Hd as [? Hseq ? ? ? ? Hfk]. split; simpl; try done.
  - apply NoDup_snoc_fresh; [done|]. intros (u & Hu & Hin)%list_elem_of_fmap.
    specialize (Hseq u Hin). lia.
  - intros u [Hu| ->%list_elem_of_singleton]%elem_of_app; [|lia].
    specialize (Hseq u Hu). lia.
  - by apply NoDup_snoc_fresh.
  - by apply NoDup_snoc_fresh.
  - intros w Hw. rewrite fmap_app, elem_of_app. left. by apply Hfk.
Qed.

Lemma post_workouts_db_ok L now userId req d :
  db_ok d → db_ok (post_workouts L now userId req d).1.
Proof.
  intros Hd. rewrite post_workouts_cases. cbv zeta.
  destruct (_ || _); [done|].
  destruct (workout_values _ _ _ _ _) as [values|]; [|done].
  destruct (new_workout_row _ _ _ _ _) as [row|e] eqn:Hrow; simpl;
    [|by apply db_ok_bump_workouts].
  apply new_workout_row_Ok in Hrow as (Hid & Hu & _ & _ & Hfk).
  destruct Hd as [? ? ? ? ? Hseq ?]. split; simpl; try done.
  - apply NoDup_snoc_fresh; [done|]. intros (w & Hw & Hin)%list_elem_of_fmap.
    specialize (Hseq w Hin). lia.
  - intros w [Hw| ->%list_elem_of_singleton]%elem_of_app; [|lia].
    specialize (Hseq w Hw). lia.
  - intros w [Hw| ->%list_elem_of_singleton]%elem_of_app; [by auto|].
    by rewrite Hu.
Qed.

Lemma delete_workouts_db_ok L userId req d :
  db_ok d → db_ok (delete_workouts L userId req d).1.
Proof.
  intros Hd. rewrite delete_workouts_cases.
  destruct (pg_int4in L (params_id req)) as [i|e]; [|done]. simpl.
  destruct Hd as [? ? ? ? ? ? ?]. split; simpl; try done.
  - apply (sublist_NoDup _ (w_id <$> workouts d)); [done|].
    apply fmap_sublist, sublist_filter.
  - intros w [_ Hw]%list_elem_of_filter. auto.
  - intros w [_ Hw]%list_elem_of_filter. auto.
Qed.

Lemma app_handle_db_ok L now r req d : db_ok d → db_ok (app_handle L now r req d).1.
Proof.
  intros Hd.
  assert (∀ next, (∀ userId d', db_ok d' → db_ok (next userId d').1) →
                  db_ok (authMiddleware L req next d).1) as Hgate.
  { intros next Hnext. unfold authMiddleware.
    destruct (negb (truthy (bearer_token req))); [done|].
    destruct (bearer_token req) as [| | | |token| |]; try done.
    destruct (jwt_verify L token (JWT_SECRET L)); [by apply Hnext|done]. }
  destruct r; simpl.
  - by apply register_db_ok.
  - by rewrite login_cases.
  - apply Hgate. intros userId d' Hd'. by rewrite get_workouts_rows.
  - apply Hgate. intros userId d' Hd'. by apply post_workouts_db_ok.
  - apply Hgate. intros userId d' Hd'. by apply delete_workouts_db_ok.
Qed.

Lemma NoDup_fmap_same_key {A B} (f : A → B) (l : list A) (x y : A) :
  NoDup (f <$> l) → x ∈ l → y ∈ l → f x = f y → x = y.
Proof.
  intros Hl [i Hi]%list_elem_of_lookup [j Hj]%list_elem_of_lookup Hxy.
  assert (i = j) as ->; [|congruence].
  apply (NoDup_lookup (f <$> l) i j (f x)); [done|..];
    rewrite list_lookup_fmap; [by rewrite Hi|by rewrite Hj, Hxy].
Qed.

(** ** Isolation between users *)

Lemma post_workouts_created L now userId req d d' w :
  post_workouts L now userId req d = (d', res_json (Workout w)) →
  w_user_id w = userId ∧ w_id w = workouts_id_seq d + 1
  ∧ workouts d' = workouts d ++ [w].
Proof.
  rewrite post_workouts_cases. cbv zeta.
  destruct (_ || _); [done|].
  destruct (workout_values _ _ _ _ _) as [values|]; [|done].
  destruct (new_workout_row _ _ _ _ _) as [row|e] eqn:Hrow; [|done].
  intros [= <- <-]. apply new_workout_row_Ok in Hrow as (? & ? & _). done.
Qed.

Lemma delete_workouts_foreign L userId req d w :
  db_ok d → w ∈ workouts d → w_user_id w ≠ userId →
  pg_int4in L (params_id req) = Ok (w_id w) →
  delete_workouts L userId req d
  = (d, res_status_json 404 (Error "Workout not found")).
Proof.
  intros Hd Hw Hu Hid. rewrite delete_workouts_cases, Hid.
  assert (filter (hit (w_id w) userId) (workouts d) = []) as Hnone.
  { apply elem_of_nil_inv. intros r [[Hr1 Hr2] Hr]%list_elem_of_filter.
    assert (r = w) as -> by (eapply (NoDup_fmap_same_key w_id); eauto using workouts_pkey).
    done. }
  rewrite Hnone, filter_none_hit by done. simpl.
  by rewrite with_workouts_same.
Qed.

(** C1: let [u1] and [u2] be distinct users.  A workout that a request of
    [u1] created is in no listing of [u2], whatever the store has become.
    When [u2] asks to delete the id of a row of [u1], the answer is 404
    "Workout not found" and the store is as before.  A listing holds only
    rows of the caller, and a delete keeps every row of every other user. *)
Theorem user_isolation (L : Libs) (u1 u2 : Z) :
  u1 ≠ u2 →
  (∀ now req d0 d1 w,
     post_workouts L now u1 req d0 = (d1, res_json (Workout w)) →
     ∀ d, ∃ rows, get_workouts L u2 d = (d, res_json (Workouts rows)) ∧ w ∉ rows)
  ∧ (∀ req d w,
       db_ok d → w ∈ workouts d → w_user_id w = u1 →
       pg_int4in L (params_id req) = Ok (w_id w) →
       delete_workouts L u2 req d
       = (d, res_status_json 404 (Error "Workout not found")))
  ∧ (∀ d, ∃ rows,
       get_workouts L u2 d = (d, res_json (Workouts rows))
       ∧ ∀ w, w ∈ rows → w ∈ workouts d ∧ w_user_id w = u2)
  ∧ (∀ req d w,
       w ∈ workouts d → w_user_id w ≠ u2 →
       w ∈ workouts (delete_workouts L u2 req d).1).
Proof.
  intros Hne. split; [|split; [|split]].
  - intros now req d0 d1 w [Hu _]%post_workouts_created d.
    eexists. split; [apply get_workouts_rows|].
    rewrite elem_of_listing. intros [_ Hu2]. congruence.
  - intros req d w Hd Hw Hu Hid.
    apply (delete_workouts_foreign L u2 req d w); congruence.
  - intros d. eexists. split; [apply get_workouts_rows|].
    intros w. by rewrite elem_of_listing.
  - intros req d w Hw Hu. rewrite delete_workouts_cases.
    destruct (pg_int4in L (params_id req)) as [i|e]; [|done]. simpl.
    apply list_elem_of_filter. split; [|done]. intros [_ Hu']. done.
Qed.

(** ** Deleting a workout *)

(** C6, as the code has it: when the server reads the id of the path as the
    integer [i], exactly the rows with id [i] owned by the caller leave the
    table; the answer is 200 "Workout deleted" when there was such a row
    and 404 "Workout not found", with the store unchanged, when there was
    none, whether the id is unknown or belongs to someone else.  When the
    server refuses the id of the path as an integer, the statement fails,
    the answer is 500 "Failed to delete workout" and the store is
    unchanged. *)
Theorem delete_workouts_outcomes (L : Libs) (userId : Z) (req : request) (d : db) :
  (∀ i, pg_int4in L (params_id req) = Ok i →
     (∀ w, w ∈ workouts (delete_workouts L userId req d).1
           ↔ w ∈ workouts d ∧ ¬ (w_id w = i ∧ w_user_id w = userId))
     ∧ users (delete_workouts L userId req d).1 = users d
     ∧ ((∃ w, w ∈ workouts d ∧ w_id w = i ∧ w_user_id w = userId) →
          (delete_workouts L userId req d).2
          = res_json (Message "Workout deleted"))
     ∧ ((∀ w, w ∈ workouts d → ¬ (w_id w = i ∧ w_user_id w = userId)) →
          delete_workouts L userId req d
          = (d, res_status_json 404 (Error "Workout not found"))))
  ∧ (∀ e, pg_int4in L (params_id req) = Throw e →
       delete_workouts L userId req d
       = (d, res_status_json 500 (Error "Failed to delete workout"))).
Proof.
  rewrite delete_workouts_cases. split.
  - intros i ->. simpl. split; [|split; [done|split]].
    + intros w. rewrite list_elem_of_filter. unfold hit. tauto.
    + intros (w & Hw & Hi & Hu). case_bool_decide as Hnone; [|done].
      exfalso. eapply filter_nil_not_elem_of; [exact Hnone| |exact Hw]. done.
    + intros Hno.
      assert (filter (hit i userId) (workouts d) = []) as Hnone.
      { apply elem_of_nil_inv. intros w [Hh Hw]%list_elem_of_filter.
        by apply (Hno w). }
      rewrite Hnone, filter_none_hit by done. simpl.
      by rewrite with_workouts_same.
  - by intros e ->.
Qed.

(** ** Creating a workout *)

Lemma prop_lookup k (b : gmap string jsval) v : b !! k = Some v → prop k b = v.
Proof. unfold prop. by intros ->. Qed.

Lemma prop_absent k (b : gmap string jsval) : b !! k = None → prop k b = JUndefined.
Proof. unfold prop. by intros ->. Qed.

Lemma truthy_string s : s ≠ "" → truthy (JString s) = true.
Proof. simpl. by destruct (String.eqb_spec s ""). Qed.

(** C5: a creation request that lacks [exercise_id], [exercise_name] or
    [sets], or whose [sets] is not an array, is answered 400 "Invalid
    workout data", and the store stays as it was: no row is created. *)
Theorem post_workouts_validation (L : Libs) (now userId : Z) (req : request) (d : db) :
  body req !! "exercise_id" = None ∨ body req !! "exercise_name" = None
  ∨ body req !! "sets" = None ∨ isArray (prop "sets" (body req)) = false →
  post_workouts L now userId req d
  = (d, res_status_json 400 (Error "Invalid workout data")).
Proof.
  intros H. rewrite post_workouts_cases. cbv zeta.
  destruct H as [H|[H|[H|H]]].
  - by rewrite (prop_absent _ _ H).
  - rewrite (prop_absent _ _ H). simpl. by rewrite orb_true_r.
  - rewrite (prop_absent _ _ H). simpl. by rewrite !orb_true_r.
  - rewrite H. simpl. by rewrite !orb_true_r.
Qed.

Lemma varchar_in_fits n s :
  occurs "000" s = false → (String.length s ≤ n)%nat → varchar_in n s = Ok s.
Proof.
  intros Hz Hn. unfold varchar_in. rewrite (text_in_clean s Hz). simpl.
  by apply varchar_fits.
Qed.

(** The parameters of the INSERT when the two names are strings the server
    takes in. *)
Lemma workout_values_Ok jsonb_in s1 s2 text ts e1 e2 doc :
  varchar_in 100 s1 = Ok e1 → varchar_in 100 s2 = Ok e2 →
  jsonb_in text = Ok doc →
  workout_values jsonb_in (Some s1) (Some s2) (Some text) ts
  = match ts with
    | None => Ok (Some e1, Some e2, Some doc, None)
    | Some t =>
        match text_in t with
        | Throw e => Throw e
        | Ok t =>
            match varchar 50 t with
            | Throw e => Throw e
            | Ok t' => Ok (Some e1, Some e2, Some doc, Some t')
            end
        end
    end.
Proof.
  intros [Hz1 Hv1]%varchar_in_Ok [Hz2 Hv2]%varchar_in_Ok Hdoc.
  unfold workout_values. simpl.
  rewrite (text_in_clean s1 Hz1), (text_in_clean s2 Hz2), Hdoc. simpl.
  destruct ts as [t|]; simpl.
  - destruct (text_in t) as [t1|]; simpl; [|done].
    rewrite Hv1, Hv2. simpl. by destruct (varchar 50 t1).
  - by rewrite Hv1, Hv2.
Qed.

Lemma post_workouts_valid L now userId req d eid ename xs ts doc :
  body req !! "exercise_id" = Some (JString eid) → eid ≠ "" →
  occurs "000" eid = false → (String.length eid ≤ 100)%nat →
  body req !! "exercise_name" = Some (JString ename) → ename ≠ "" →
  occurs "000" ename = false → (String.length ename ≤ 100)%nat →
  body req !! "sets" = Some (JArray xs) →
  pg_jsonb_in L (JSON_stringify L (JArray xs)) = Ok doc →
  body req !! "workout_timestamp" = Some (JString ts) →
  occurs "000" ts = false → (String.length ts ≤ 50)%nat →
  userId ∈ u_id <$> users d →
  let w := {| w_id := workouts_id_seq d + 1; w_user_id := userId;
              w_exercise_id := eid; w_exercise_name := ename;
              w_sets_data := doc;
              w_workout_timestamp := ts; w_created_at := now |} in
  post_workouts L now userId req d
  = (with_workouts d (workouts d ++ [w]) (workouts_id_seq d + 1),
     res_json (Workout w)).
Proof.
  intros He He0 Hez Hel Hn Hn0 Hnz Hnl Hs Hdoc Ht Htz Htl Hu w.
  rewrite post_workouts_cases. cbv zeta.
  rewrite (prop_lookup _ _ _ He), (prop_lookup _ _ _ Hn),
    (prop_lookup _ _ _ Hs), (prop_lookup _ _ _ Ht).
  rewrite !truthy_string by done. simpl.
  rewrite (workout_values_Ok _ eid ename _ _ eid ename doc)
    by (done || by apply varchar_in_fits).
  rewrite (text_in_clean ts Htz), (varchar_fits 50 ts Htl).
  unfold new_workout_row. simpl.
  by rewrite bool_decide_true.
Qed.


Lemma prepareValue_truthy L v : truthy v = true → is_Some (prepareValue L v).
Proof. destruct v; simpl; eauto; done. Qed.


(** ** Falsy fields *)

Lemma register_falsy L now req d k :
  k ∈ ["username"; "email"; "password"] →
  truthy (prop k (body req)) = false →
  register L now req d
  = (d, res_status_json 400 (Error "All fields are required")).
Proof.
  intros Hk Hf. rewrite register_cases. cbv zeta.
  repeat (apply elem_of_cons in Hk as [->|Hk]);
    [| | |by apply elem_of_nil in Hk]; rewrite Hf; simpl;
    by rewrite ?orb_true_r.
Qed.

Lemma post_workouts_falsy L now userId req d k :
  k ∈ ["exercise_id"; "exercise_name"; "sets"] →
  truthy (prop k (body req)) = false →
  post_workouts L now userId req d
  = (d, res_status_json 400 (Error "Invalid workout data")).
Proof.
  intros Hk Hf. rewrite post_workouts_cases. cbv zeta.
  repeat (apply elem_of_cons in Hk as [->|Hk]);
    [| | |by apply elem_of_nil in Hk]; rewrite Hf; simpl;
    by rewrite ?orb_true_r.
Qed.

Lemma prop_delete req k :
  prop k (body (with_body req (delete k (body req)))) = JUndefined.
Proof. unfold prop. simpl. by rewrite lookup_delete_eq. Qed.

(** C10: a required field that is present with the empty string as its
    value gets the answer the request would get without the field: 400 "All
    fields are required" from registration, 400 "Invalid workout data" from
    the creation of a workout, the store unchanged. *)
Theorem empty_string_as_absent
    (L : Libs) (now userId : Z) (req : request) (d : db) (k : string) :
  body req !! k = Some (JString "") →
  (k ∈ ["username"; "email"; "password"] →
     register L now req d
     = (d, res_status_json 400 (Error "All fields are required"))
     ∧ register L now req d
       = register L now (with_body req (delete k (body req))) d)
  ∧ (k ∈ ["exercise_id"; "exercise_name"; "sets"] →
     post_workouts L now userId req d
     = (d, res_status_json 400 (Error "Invalid workout data"))
     ∧ post_workouts L now userId req d
       = post_workouts L now userId (with_body req (delete k (body req))) d).
Proof.
  intros Hk. apply prop_lookup in Hk.
  split; intros Hin.
  - rewrite (register_falsy L now req d k), (register_falsy L now _ d k);
      try done; [by rewrite prop_delete|by rewrite Hk].
  - rewrite (post_workouts_falsy L now userId req d k),
      (post_workouts_falsy L now userId _ d k);
      try done; [by rewrite prop_delete|by rewrite Hk].
Qed.

(** ** Login *)

Lemma filter_unique_key {A B} `{EqDecision B} (f : A → B) (l : list A) (x : A) :
  NoDup (f <$> l) → x ∈ l → filter (λ y, f y = f x) l = [x].
Proof.
  induction l as [|a l IH]; [by intros _ ?%elem_of_nil|].
  rewrite fmap_cons, NoDup_cons. intros [Ha Hl] Hx.
  apply elem_of_cons in Hx as [->|Hx].
  - rewrite filter_cons_True by done. f_equal.
    apply elem_of_nil_inv. intros y [Hy Hin]%list_elem_of_filter.
    apply Ha. rewrite <- Hy. by apply list_elem_of_fmap_2.
  - rewrite filter_cons_False; [by apply IH|].
    intros Hax. apply Ha. rewrite Hax. by apply list_elem_of_fmap_2.
Qed.

(** C3, as the code has it.  A login whose email the store takes in (no
    U+0000) and matches no user row, and a login whose password the stored
    hash does not verify, get the same answer, 401 "Invalid credentials".
    But when bcrypt.compare throws for a known email (as it does for an
    absent password), the answer is 500 "Login failed", which an unknown
    email never gets for the same password; and an email with a U+0000 is
    answered 500 whether known or not.  When the password verifies, the
    answer is 200 with a token signed for the row's id and the row's id,
    username and email, or 500 when signing throws.  The store is never
    changed. *)
Theorem login_outcomes (L : Libs) (req : request) (d : db) :
  db_ok d →
  ((∀ u, u ∈ users d →
         prepareValue L (prop "email" (body req)) ≠ Some (u_email u)) →
     (∀ e, prepareValue L (prop "email" (body req)) = Some e →
           occurs "000" e = false) →
     login L req d = (d, res_status_json 401 (Error "Invalid credentials")))
  ∧ (∀ e, prepareValue L (prop "email" (body req)) = Some e →
          occurs "000" e = true →
          login L req d = (d, res_status_json 500 (Error "Login failed")))
  ∧ (∀ u, u ∈ users d →
       prepareValue L (prop "email" (body req)) = Some (u_email u) →
       occurs "000" (u_email u) = false →
       (bcrypt_compare L (prop "password" (body req)) (u_password_hash u)
        = Some false →
        login L req d = (d, res_status_json 401 (Error "Invalid credentials")))
       ∧ (bcrypt_compare L (prop "password" (body req)) (u_password_hash u)
          = None →
          login L req d = (d, res_status_json 500 (Error "Login failed")))
       ∧ (bcrypt_compare L (prop "password" (body req)) (u_password_hash u)
          = Some true →
          (∀ token, jwt_sign L (u_id u) (JWT_SECRET L) "7d" = Some token →
             login L req d
             = (d, res_json (Auth token
                      {| id := u_id u; username := u_username u;
                         email := u_email u |})))
          ∧ (jwt_sign L (u_id u) (JWT_SECRET L) "7d" = None →
             login L req d
             = (d, res_status_json 500 (Error "Login failed"))))).
Proof.
  intros Hd. rewrite login_cases. split; [|split].
  - intros Hno Hclean. destruct (prepareValue L _) as [e|] eqn:He; [|done].
    rewrite (Hclean e eq_refl).
    replace (filter _ (users d)) with (@nil user_row); [done|].
    symmetry. apply elem_of_nil_inv. intros u [Hu Hin]%list_elem_of_filter.
    apply (Hno u Hin). by rewrite Hu.
  - by intros e -> ->.
  - intros u Hu -> ->.
    rewrite (filter_unique_key u_email) by eauto using users_email_key.
    split; [by intros ->|]. split; [by intros ->|].
    intros ->. split; [intros token Hs|intros Hs]; by rewrite Hs.
Qed.

(** A password that bcryptjs refuses to compare, such as an absent one, is
    answered 500 when the email is known. *)
Lemma login_compare_throws L req d u :
  db_ok d → u ∈ users d →
  prepareValue L (prop "email" (body req)) = Some (u_email u) →
  bcrypt_compare L (prop "password" (body req)) (u_password_hash u) = None →
  login L req d = (d, res_status_json 500 (Error "Login failed")).
Proof.
  intros Hd Hu He Hc. rewrite login_cases, He.
  destruct (occurs "000" (u_email u)); [done|].
  rewrite (filter_unique_key u_email) by eauto using users_email_key.
  by rewrite Hc.
Qed.

(** ** Registration *)

(** C4, as the code has it.  When [username], [email] or [password] is
    absent or otherwise falsy, the answer is 400 "All fields are required"
    and the store is unchanged.  Otherwise the password is hashed and the
    INSERT is sent.  When hashing throws, or one of the three values holds a
    U+0000 or does not fit its column, the answer is 500 "Registration
    failed" and the store is unchanged.  When the server takes the three
    values in and the username or the email is already in the table, the
    answer is 400 "Username or email already exists" and no row is added
    (an id is used up).  When both are new, the row is added, and the answer
    is 200 with a signed token and the new id, username and email, or 500
    "Registration failed" when signing the token throws. *)
Theorem register_outcomes (L : Libs) (now : Z) (req : request) (d : db) :
  (truthy (prop "username" (body req)) && truthy (prop "email" (body req))
   && truthy (prop "password" (body req)) = false →
   register L now req d
   = (d, res_status_json 400 (Error "All fields are required")))
  ∧ (truthy (prop "username" (body req)) && truthy (prop "email" (body req))
     && truthy (prop "password" (body req)) = true →
     (bcrypt_hash L (prop "password" (body req)) 10 = None →
      register L now req d
      = (d, res_status_json 500 (Error "Registration failed")))
     ∧ ∃ un0 em0,
         prepareValue L (prop "username" (body req)) = Some un0
         ∧ prepareValue L (prop "email" (body req)) = Some em0
         ∧ ∀ h0, bcrypt_hash L (prop "password" (body req)) 10 = Some h0 →
           let new_id := users_id_seq d + 1 in
           match varchar_in 50 un0, varchar_in 100 em0, varchar_in 255 h0 with
           | Ok un, Ok em, Ok h =>
               let row := {| u_id := new_id; u_username := un; u_email := em;
                             u_password_hash := h; u_created_at := now |} in
               (un ∈ u_username <$> users d ∨ em ∈ u_email <$> users d →
                register L now req d
                = (with_users d (users d) new_id,
                   res_status_json 400
                     (Error "Username or email already exists")))
               ∧ (un ∉ u_username <$> users d → em ∉ u_email <$> users d →
                  (∀ token,
                     jwt_sign L new_id (JWT_SECRET L) "7d" = Some token →
                     register L now req d
                     = (with_users d (users d ++ [row]) new_id,
                        res_json (Auth token
                          {| id := new_id; username := un; email := em |})))
                  ∧ (jwt_sign L new_id (JWT_SECRET L) "7d" = None →
                     register L now req d
                     = (with_users d (users d ++ [row]) new_id,
                        res_status_json 500 (Error "Registration failed"))))
           | _, _, _ =>
               register L now req d
               = (d, res_status_json 500 (Error "Registration failed"))
           end).
Proof.
  rewrite register_cases. cbv zeta.
  destruct (truthy (prop "username" (body req))) eqn:Hu; [|by split].
  destruct (truthy (prop "email" (body req))) eqn:He; [|by split].
  destruct (truthy (prop "password" (body req))) eqn:Hp; [|by split].
  simpl. split; [done|]. intros _. split; [by intros ->|].
  destruct (prepareValue_truthy L _ Hu) as [un0 Hun0].
  destruct (prepareValue_truthy L _ He) as [em0 Hem0].
  exists un0, em0. rewrite Hun0, Hem0. do 2 (split; [done|]).
  intros h0 ->.
  assert (∀ values, user_values (Some un0) (Some em0) (Some h0) = Ok values →
            ∃ un em h, values = (Some un, Some em, Some h)
                       ∧ varchar_in 50 un0 = Ok un ∧ varchar_in 100 em0 = Ok em
                       ∧ varchar_in 255 h0 = Ok h) as Hok.
  { unfold user_values, varchar_in. simpl. intros values H.
    destruct (text_in un0) as [a|]; simpl in H |- *; [|done].
    destruct (text_in em0) as [b|]; simpl in H |- *; [|done].
    destruct (text_in h0) as [c|]; simpl in H |- *; [|done].
    destruct (varchar 50 a) as [a'|]; simpl in H; [|done].
    destruct (varchar 100 b) as [b'|]; simpl in H; [|done].
    destruct (varchar 255 c) as [c'|]; simpl in H; [|done].
    injection H as <-. by eauto 10. }
  assert (∀ e, user_values (Some un0) (Some em0) (Some h0) = Throw e →
            match varchar_in 50 un0, varchar_in 100 em0, varchar_in 255 h0 with
            | Ok _, Ok _, Ok _ => False
            | _, _, _ => True
            end) as Hthrow.
  { unfold user_values, varchar_in. simpl. intros e H.
    destruct (text_in un0) as [a|]; simpl in H |- *; [|done].
    destruct (text_in em0) as [b|]; simpl in H |- *;
      [|by destruct (varchar 50 a)].
    destruct (text_in h0) as [c|]; simpl in H |- *;
      [|by destruct (varchar 50 a); [destruct (varchar 100 b)|]].
    destruct (varchar 50 a) as [a'|]; simpl in H |- *; [|done].
    destruct (varchar 100 b) as [b'|]; simpl in H |- *; [|done].
    by destruct (varchar 255 c) as [c'|]. }
  destruct (user_values _ _ _) as [values|e] eqn:Hv.
  - destruct (Hok values eq_refl) as (un & em & h & -> & -> & -> & ->).
    unfold new_user_row. simpl. split.
    + intros [Hin|Hin].
      * by rewrite bool_decide_true.
      * rewrite (bool_decide_true _ Hin). by case_bool_decide.
    + intros Hun Hem. rewrite !bool_decide_false by done. simpl.
      split; [intros token Hs|intros Hs]; by rewrite Hs.
  - specialize (Hthrow e eq_refl).
    by destruct (varchar_in 50 un0), (varchar_in 100 em0),
         (varchar_in 255 h0).
Qed.

(** ** The properties on the sample requests *)

Lemma db_ok_d2 : db_ok Demo.d2.
Proof. apply register_db_ok, register_db_ok, db_ok_empty. Qed.

Lemma db_ok_d3 : db_ok Demo.d3.
Proof. apply post_workouts_db_ok, db_ok_d2. Qed.

(** Under the C collation the older entry is listed first: "9/..." is above
    "10/..." as a string, though the 9th is before the 10th. *)
Example listing_is_not_chronological :
  (get_workouts Demo.libs 1 Demo.local_format).2
  = res_json (Workouts (reverse (workouts Demo.local_format))).
Proof. reflexivity. Qed.

(** C2 as stated fails on a database whose collation is that of a language:
    the four timestamps are listed B, b, A, a, where "b" comes after "B"
    although it is the greater string by the codes of its characters, so the
    listing is not in descending lexical order.  Nor is such a listing
    lexical for some other order of the characters: "A" is listed before
    "a", and yet "ab" before "Aa". *)
Lemma listing_follows_collation :
  get_workouts Demo.libs_en_US 1 Demo.letters
  = (Demo.letters,
     res_json (Workouts [Demo.stamped 4 "B"; Demo.stamped 3 "b";
                         Demo.stamped 2 "A"; Demo.stamped 1 "a"]))
  ∧ String.leb "b" "B" = false
  ∧ String.leb "B" "b" = true
  ∧ get_workouts Demo.libs_en_US 1 Demo.words
    = (Demo.words,
       res_json (Workouts [Demo.stamped 3 "ab"; Demo.stamped 4 "Aa";
                           Demo.stamped 2 "A"; Demo.stamped 1 "a"])).
Proof. repeat split; reflexivity. Qed.

Lemma list_sorted_by_timestamp_string_witness :
  ∃ rows,
    get_workouts Demo.libs 1 Demo.local_format
    = (Demo.local_format, res_json (Workouts rows))
    ∧ rows ≡ₚ filter (λ w, w_user_id w = 1) (workouts Demo.local_format)
    ∧ StronglySorted
        (λ a b, String.leb (w_workout_timestamp b) (w_workout_timestamp a)
                = true)
        rows.
Proof.
  destruct (list_sorted_by_timestamp_string Demo.libs 1 Demo.local_format)
    as (rows & Hget & Hperm & Hsorted & _).
  - intros s1 s2. destruct (String.leb_total s1 s2); auto.
  - intros s1 s2 s3 H12 H23. apply Is_true_true.
    apply Is_true_true in H12, H23.
    exact (transitivity (R:=String.le) H12 H23).
  - exists rows. split; [exact Hget|]. split; [exact Hperm|exact Hsorted].
Defined.

Lemma user_isolation_witness :
  (∃ rows, get_workouts Demo.libs 2 Demo.d3
           = (Demo.d3, res_json (Workouts rows))
           ∧ Demo.squat_row ∉ rows)
  ∧ delete_workouts Demo.libs 2 (Demo.delete_request "jwt2" "1") Demo.d3
    = (Demo.d3, res_status_json 404 (Error "Workout not found")).
Proof.
  assert (1 ≠ 2) as Hne by discriminate.
  destruct (user_isolation Demo.libs 1 2 Hne) as (Hlist & Hdel & _ & _).
  split.
  - apply (Hlist 20 Demo.squat Demo.d2 Demo.d3). reflexivity.
  - apply (Hdel _ _ Demo.squat_row).
    + apply db_ok_d3.
    + apply list_elem_of_singleton. reflexivity.
    + reflexivity.
    + reflexivity.
Defined.

Lemma authMiddleware_gate_witness :
  authMiddleware Demo.libs (Demo.json_request []) (get_workouts Demo.libs) Demo.d3
  = (Demo.d3, res_status_json 401 (Error "No token provided"))
  ∧ authMiddleware Demo.libs (Demo.delete_request "forged" "1")
      (get_workouts Demo.libs) Demo.d3
    = (Demo.d3, res_status_json 401 (Error "Invalid token"))
  ∧ authMiddleware Demo.libs (Demo.delete_request "jwt1" "1")
      (get_workouts Demo.libs) Demo.d3
    = get_workouts Demo.libs 1 Demo.d3.
Proof.
  split; [|split].
  - apply (authMiddleware_gate Demo.libs (Demo.json_request [])). reflexivity.
  - destruct (authMiddleware_gate Demo.libs (Demo.delete_request "forged" "1")
                (get_workouts Demo.libs) Demo.d3)
      as (_ & Htoken & _ & Hbearer).
    apply (Htoken "forged");
      [apply Hbearer; reflexivity|discriminate|reflexivity].
  - destruct (authMiddleware_gate Demo.libs (Demo.delete_request "jwt1" "1")
                (get_workouts Demo.libs) Demo.d3)
      as (_ & Htoken & _ & Hbearer).
    apply (Htoken "jwt1");
      [apply Hbearer; reflexivity|discriminate|reflexivity].
Defined.

(** C3 as stated fails.  With no password in the request, alice's email is
    answered 500 and an email nobody registered 401: the two are told apart.
    And an email that holds a U+0000 matches no row, yet is answered 500. *)
Lemma login_tells_known_email :
  login Demo.libs (Demo.json_request [("email", JString "a@x.com")]) Demo.d2
  = (Demo.d2, res_status_json 500 (Error "Login failed"))
  ∧ login Demo.libs (Demo.json_request [("email", JString "nobody@x.com")])
      Demo.d2
    = (Demo.d2, res_status_json 401 (Error "Invalid credentials"))
  ∧ (∀ u, u ∈ users Demo.d2 → u_email u ≠ String "000" "@x.com")
  ∧ login Demo.libs
      (Demo.login_request (String "000" "@x.com") "pw123456") Demo.d2
    = (Demo.d2, res_status_json 500 (Error "Login failed")).
Proof.
  split; [reflexivity|]. split; [reflexivity|]. split; [|reflexivity].
  intros u [->|[->|[]%elem_of_nil]%elem_of_cons]%elem_of_cons; discriminate.
Qed.

Lemma login_outcomes_witness :
  login Demo.libs (Demo.login_request "nobody@x.com" "pw123456") Demo.d2
  = (Demo.d2, res_status_json 401 (Error "Invalid credentials"))
  ∧ login Demo.libs (Demo.login_request "a@x.com" "wrong") Demo.d2
    = (Demo.d2, res_status_json 401 (Error "Invalid credentials"))
  ∧ login Demo.libs (Demo.login_request "a@x.com" "pw123456") Demo.d2
    = (Demo.d2, res_json (Auth "jwt1"
         {| id := 1; username := "alice"; email := "a@x.com" |})).
Proof.
  pose (a := {| u_id := 1; u_username := "alice"; u_email := "a@x.com";
                u_password_hash := "$2a$10$pw123456"; u_created_at := 5 |}).
  assert (a ∈ users Demo.d2) as Ha by apply list_elem_of_here.
  destruct (login_outcomes Demo.libs
              (Demo.login_request "nobody@x.com" "pw123456") Demo.d2 db_ok_d2)
    as (Hnone & _ & _).
  destruct (login_outcomes Demo.libs
              (Demo.login_request "a@x.com" "wrong") Demo.d2 db_ok_d2)
    as (_ & _ & Hwrong).
  destruct (login_outcomes Demo.libs
              (Demo.login_request "a@x.com" "pw123456") Demo.d2 db_ok_d2)
    as (_ & _ & Hright).
  split; [|split].
  - apply Hnone.
    + intros u [->|[->|[]%elem_of_nil]%elem_of_cons]%elem_of_cons; discriminate.
    + intros e [= <-]. reflexivity.
  - apply (Hwrong a Ha); reflexivity.
  - destruct (Hright a Ha eq_refl eq_refl) as (_ & _ & Hok).
    apply (Hok eq_refl). reflexivity.
Defined.

(** C4 as stated fails: all three fields are present, the table is empty,
    so no uniqueness constraint can be violated, and yet no token is
    issued, because the 52-character username does not fit VARCHAR(50). *)
Lemma register_long_username :
  truthy (prop "username" (body Demo.long_name)) = true
  ∧ truthy (prop "email" (body Demo.long_name)) = true
  ∧ truthy (prop "password" (body Demo.long_name)) = true
  ∧ users empty_db = []
  ∧ register Demo.libs 0 Demo.long_name empty_db
    = (empty_db, res_status_json 500 (Error "Registration failed")).
Proof. repeat split; reflexivity. Qed.

Lemma register_outcomes_witness :
  register Demo.libs 0 Demo.blank_username Demo.d1
  = (Demo.d1, res_status_json 400 (Error "All fields are required"))
  ∧ register Demo.libs 7 Demo.alice Demo.d1
    = (with_users Demo.d1 (users Demo.d1) 2,
       res_status_json 400 (Error "Username or email already exists"))
  ∧ (register Demo.libs 10 Demo.bob Demo.d1).2
    = res_json (Auth "jwt2" {| id := 2; username := "bob"; email := "b@x.com" |}).
Proof.
  split; [|split].
  - apply (register_outcomes Demo.libs 0 Demo.blank_username Demo.d1).
    reflexivity.
  - destruct (register_outcomes Demo.libs 7 Demo.alice Demo.d1) as [_ H].
    destruct (H eq_refl) as (_ & un0 & em0 & Hun & Hem & Hins).
    injection Hun as <-. injection Hem as <-.
    apply (Hins _ eq_refl). left. apply list_elem_of_here.
  - destruct (register_outcomes Demo.libs 10 Demo.bob Demo.d1) as [_ H].
    destruct (H eq_refl) as (_ & un0 & em0 & Hun & Hem & Hins).
    injection Hun as <-. injection Hem as <-.
    destruct (Hins _ eq_refl) as [_ Hnew].
    destruct Hnew as [Hnew _];
      [intros [Heq|[]%elem_of_nil]%elem_of_cons; discriminate Heq
      |intros [Heq|[]%elem_of_nil]%elem_of_cons; discriminate Heq|].
    rewrite (Hnew "jwt2" eq_refl). reflexivity.
Defined.

Lemma post_workouts_validation_witness :
  post_workouts Demo.libs 20 1 Demo.no_sets Demo.d2
  = (Demo.d2, res_status_json 400 (Error "Invalid workout data")).
Proof.
  apply (post_workouts_validation Demo.libs 20 1 Demo.no_sets Demo.d2).
  right. right. left. reflexivity.
Defined.

(** C6 as stated fails: no row has the id "abc", and the answer is 500,
    not 404. *)
Lemma delete_workouts_non_numeric_id :
  (∀ w, w ∈ workouts Demo.d3 → int4in "abc" ≠ Ok (w_id w))
  ∧ delete_workouts Demo.libs 1 (Demo.delete_request "jwt1" "abc") Demo.d3
    = (Demo.d3, res_status_json 500 (Error "Failed to delete workout")).
Proof. split; [intros w _; discriminate|reflexivity]. Qed.

Lemma delete_workouts_outcomes_witness :
  (delete_workouts Demo.libs 1 (Demo.delete_request "jwt1" "1") Demo.d3).2
  = res_json (Message "Workout deleted")
  ∧ delete_workouts Demo.libs 1 (Demo.delete_request "jwt1" "7") Demo.d3
    = (Demo.d3, res_status_json 404 (Error "Workout not found"))
  ∧ delete_workouts Demo.libs 1 (Demo.delete_request "jwt1" "first") Demo.d3
    = (Demo.d3, res_status_json 500 (Error "Failed to delete workout")).
Proof.
  split; [|split].
  - destruct (delete_workouts_outcomes Demo.libs 1
                (Demo.delete_request "jwt1" "1") Demo.d3) as [Hint _].
    destruct (Hint 1 eq_refl) as (_ & _ & Hdel & _).
    apply Hdel. exists Demo.squat_row.
    split; [apply list_elem_of_here|split; reflexivity].
  - destruct (delete_workouts_outcomes Demo.libs 1
                (Demo.delete_request "jwt1" "7") Demo.d3) as [Hint _].
    destruct (Hint 7 eq_refl) as (_ & _ & _ & Hnone).
    apply Hnone.
    intros w [->|[]%elem_of_nil]%elem_of_cons [Hid _]. discriminate Hid.
  - destruct (delete_workouts_outcomes Demo.libs 1
                (Demo.delete_request "jwt1" "first") Demo.d3) as [_ Hbad].
    apply (Hbad (DatabaseError invalid_text_representation)). reflexivity.
Defined.





Lemma empty_string_as_absent_witness :
  (register Demo.libs 0 Demo.blank_username Demo.d1
   = (Demo.d1, res_status_json 400 (Error "All fields are required"))
   ∧ register Demo.libs 0 Demo.blank_username Demo.d1
     = register Demo.libs 0
         (with_body Demo.blank_username
            (delete "username" (body Demo.blank_username))) Demo.d1)
  ∧ (post_workouts Demo.libs 20 1 Demo.blank_exercise Demo.d2
     = (Demo.d2, res_status_json 400 (Error "Invalid workout data"))
     ∧ post_workouts Demo.libs 20 1 Demo.blank_exercise Demo.d2
       = post_workouts Demo.libs 20 1
           (with_body Demo.blank_exercise
              (delete "exercise_name" (body Demo.blank_exercise))) Demo.d2).
Proof.
  split.
  - destruct (empty_string_as_absent Demo.libs 0 1 Demo.blank_username Demo.d1
                "username") as [Hreg _]; [reflexivity|].
    apply Hreg. apply list_elem_of_here.
  - destruct (empty_string_as_absent Demo.libs 20 1 Demo.blank_exercise Demo.d2
                "exercise_name") as [_ Hpost]; [reflexivity|].
    apply Hpost. apply list_elem_of_further, list_elem_of_here.
Defined.

(** * Further properties of the handlers *)

(** ** Integrity of every store the service reaches *)

Lemma register_widths_ok L now req d :
  widths_ok d → widths_ok (register L now req d).1.
Proof.
  intros Hd. rewrite register_cases. cbv zeta.
  destruct (_ || _); [done|].
  destruct (bcrypt_hash L _ _) as [h|]; [|done].
  destruct (user_values _ _ _) as [values|] eqn:Hv; [|done].
  destruct (new_user_row _ _ _ _) as [row|e] eqn:Hrow; simpl;
    [|by destruct Hd].
  apply new_user_row_Ok in Hrow as (_ & _ & -> & _).
  apply user_values_width in Hv as (Hun & Hem & Hph).
  destruct Hd as [H1 H2 H3 H4 H5 H6]. split; simpl; try done.
  all: intros u [Hu| ->%list_elem_of_singleton]%elem_of_app; auto.
Qed.

Lemma post_workouts_widths_ok L now userId req d :
  widths_ok d → widths_ok (post_workouts L now userId req d).1.
Proof.
  intros Hd. rewrite post_workouts_cases. cbv zeta.
  destruct (_ || _); [done|].
  destruct (workout_values _ _ _ _ _) as [values|] eqn:Hv; [|done].
  destruct (new_workout_row _ _ _ _ _) as [row|e] eqn:Hrow; simpl;
    [|by destruct Hd].
  apply new_workout_row_Ok in Hrow as (_ & _ & _ & -> & _).
  apply workout_values_width in Hv as (He & Hn & Ht).
  destruct Hd as [H1 H2 H3 H4 H5 H6]. split; simpl; try done.
  all: intros w [Hw| ->%list_elem_of_singleton]%elem_of_app; auto.
Qed.

Lemma delete_workouts_widths_ok L userId req d :
  widths_ok d → widths_ok (delete_workouts L userId req d).1.
Proof.
  intros Hd. rewrite delete_workouts_cases.
  destruct (pg_int4in L (params_id req)) as [i|e]; [|done]. simpl.
  destruct Hd as [H1 H2 H3 H4 H5 H6]. split; simpl; try done.
  all: intros w [_ Hw]%list_elem_of_filter; auto.
Qed.

(** What the gate can do with a request: refuse it in one of two ways, or
    hand it on with a user id. *)
Lemma authMiddleware_cases L req next d :
  authMiddleware L req next d
  = (d, res_status_json 401 (Error "No token provided"))
  ∨ authMiddleware L req next d
    = (d, res_status_json 401 (Error "Invalid token"))
  ∨ ∃ userId, authMiddleware L req next d = next userId d.
Proof.
  unfold authMiddleware.
  destruct (negb (truthy (bearer_token req))); [by left|].
  destruct (bearer_token req) as [| | | |token| |]; try (by right; left).
  destruct (jwt_verify L token (JWT_SECRET L)) as [userId|];
    [right; right; by exists userId|by right; left].
Qed.

Lemma app_handle_widths_ok L now r req d :
  widths_ok d → widths_ok (app_handle L now r req d).1.
Proof.
  intros Hd.
  assert (∀ next, (∀ userId, widths_ok (next userId d).1) →
                  widths_ok (authMiddleware L req next d).1) as Hgate.
  { intros next Hnext.
    destruct (authMiddleware_cases L req next d) as [->|[->|[userId ->]]];
      auto. }
  destruct r; simpl.
  - by apply register_widths_ok.
  - by rewrite login_cases.
  - apply Hgate. intros userId. by rewrite get_workouts_rows.
  - apply Hgate. intros userId. by apply post_workouts_widths_ok.
  - apply Hgate. intros userId. by apply delete_workouts_widths_ok.
Qed.

Lemma run_snoc L reqs now r req d :
  run L (reqs ++ [(now, r, req)]) d = (app_handle L now r req (run L reqs d)).1.
Proof. unfold run. by rewrite foldl_app. Qed.

(** X1: whatever requests the service has handled since [createTables] ran
    on an empty database, the store satisfies the schema: ids are unique and
    were issued by the sequences, usernames and emails are unique, every
    workout belongs to a user of the store, and every VARCHAR value fits the
    declared width. *)
Theorem reachable_store_integrity (L : Libs) (reqs : list (Z * route * request)) :
  db_ok (run L reqs empty_db) ∧ widths_ok (run L reqs empty_db).
Proof.
  induction reqs as [|[[now r] req] reqs [IH1 IH2]] using rev_ind.
  - split; [apply db_ok_empty|].
    split; simpl; intros ? []%elem_of_nil.
  - rewrite run_snoc. split;
      [by apply app_handle_db_ok|by apply app_handle_widths_ok].
Qed.

(** ** What a request can change *)

Lemma register_frame L now req d :
  workouts (register L now req d).1 = workouts d
  ∧ workouts_id_seq (register L now req d).1 = workouts_id_seq d
  ∧ users d `prefix_of` users (register L now req d).1
  ∧ (status (register L now req d).2 ≠ 200 →
     users (register L now req d).1 = users d
     ∨ ((register L now req d).2
        = res_status_json 500 (Error "Registration failed")
        ∧ ∃ row, users (register L now req d).1 = users d ++ [row]
                 ∧ u_id row = users_id_seq d + 1
                 ∧ jwt_sign L (u_id row) (JWT_SECRET L) "7d" = None)).
Proof.
  rewrite register_cases. cbv zeta.
  destruct (_ || _); [by auto|].
  destruct (bcrypt_hash L _ _) as [h|]; [|by auto].
  destruct (user_values _ _ _) as [values|]; [|by auto].
  destruct (new_user_row _ _ _ _) as [row|e] eqn:Hrow; simpl; [|by auto].
  apply new_user_row_Ok in Hrow as (Hid & _).
  repeat split; [by apply prefix_app_r|].
  destruct (jwt_sign L _ _ _) eqn:Hs; [done|]. intros _. right.
  split; [done|]. by exists row.
Qed.

Lemma post_workouts_frame L now userId req d :
  users (post_workouts L now userId req d).1 = users d
  ∧ users_id_seq (post_workouts L now userId req d).1 = users_id_seq d
  ∧ workouts d `prefix_of` workouts (post_workouts L now userId req d).1
  ∧ (status (post_workouts L now userId req d).2 ≠ 200 →
     workouts (post_workouts L now userId req d).1 = workouts d).
Proof.
  rewrite post_workouts_cases. cbv zeta.
  destruct (_ || _); [done|].
  destruct (workout_values _ _ _ _ _) as [values|]; [|done].
  destruct (new_workout_row _ _ _ _ _) as [row|e]; simpl; [|done].
  repeat split; [by apply prefix_app_r|done].
Qed.

Lemma delete_workouts_frame L userId req d :
  users (delete_workouts L userId req d).1 = users d
  ∧ users_id_seq (delete_workouts L userId req d).1 = users_id_seq d
  ∧ workouts_id_seq (delete_workouts L userId req d).1 = workouts_id_seq d
  ∧ workouts (delete_workouts L userId req d).1 `sublist_of` workouts d
  ∧ (status (delete_workouts L userId req d).2 ≠ 200 →
     workouts (delete_workouts L userId req d).1 = workouts d).
Proof.
  rewrite delete_workouts_cases.
  destruct (pg_int4in L (params_id req)) as [i|e]; [|done]. simpl.
  repeat split; [apply sublist_filter|].
  case_bool_decide as Hnone; [|done]. intros _. by apply filter_none_hit.
Qed.

(** X2: a request that is not answered 200 adds, alters and removes no row
    of [workouts], whichever route it went to, and no row of [users] either,
    with the one exception the registration handler has: when its INSERT
    succeeded and signing the token then threw, the answer is 500
    "Registration failed" and the new user row stays in the table. *)
Theorem failed_request_changes_no_row
    (L : Libs) (now : Z) (r : route) (req : request) (d : db) :
  status (app_handle L now r req d).2 ≠ 200 →
  workouts (app_handle L now r req d).1 = workouts d
  ∧ (users (app_handle L now r req d).1 = users d
     ∨ (r = POST_auth_register
        ∧ (app_handle L now r req d).2
          = res_status_json 500 (Error "Registration failed")
        ∧ ∃ row, users (app_handle L now r req d).1 = users d ++ [row]
                 ∧ u_id row = users_id_seq d + 1
                 ∧ jwt_sign L (u_id row) (JWT_SECRET L) "7d" = None)).
Proof.
  assert (∀ next,
            (∀ userId, status (next userId d).2 ≠ 200 →
                       users (next userId d).1 = users d
                       ∧ workouts (next userId d).1 = workouts d) →
            status (authMiddleware L req next d).2 ≠ 200 →
            users (authMiddleware L req next d).1 = users d
            ∧ workouts (authMiddleware L req next d).1 = workouts d) as Hgate.
  { intros next Hnext.
    destruct (authMiddleware_cases L req next d) as [->|[->|[userId ->]]];
      auto. }
  destruct r; simpl.
  - intros Hs. destruct (register_frame L now req d) as (? & _ & _ & Hu).
    split; [done|]. destruct (Hu Hs) as [?|[? ?]]; auto.
  - rewrite login_cases. auto.
  - intros Hs. destruct (Hgate (λ userId, get_workouts L userId)); auto.
  - intros Hs.
    destruct (Hgate (λ userId, post_workouts L now userId req)); auto.
    intros userId Hs'.
    destruct (post_workouts_frame L now userId req d) as (? & _ & _ & Hw). auto.
  - intros Hs.
    destruct (Hgate (λ userId, delete_workouts L userId req)); auto.
    intros userId Hs'.
    destruct (delete_workouts_frame L userId req d) as (? & _ & _ & _ & Hw).
    auto.
Qed.

(** X3: what each route can touch.  Registration only appends to [users]
    and leaves [workouts] and its sequence alone; login and the listing
    leave the whole store as it is; the creation of a workout only appends
    to [workouts] and leaves [users] and its sequence alone; a delete only
    takes rows out of [workouts] and leaves [users] and both sequences
    alone.  No route alters or removes a user row. *)
Theorem route_frame (L : Libs) (now : Z) (r : route) (req : request) (d : db) :
  match r with
  | POST_auth_register =>
      users d `prefix_of` users (app_handle L now r req d).1
      ∧ workouts (app_handle L now r req d).1 = workouts d
      ∧ workouts_id_seq (app_handle L now r req d).1 = workouts_id_seq d
  | POST_auth_login | GET_workouts => (app_handle L now r req d).1 = d
  | POST_workouts =>
      workouts d `prefix_of` workouts (app_handle L now r req d).1
      ∧ users (app_handle L now r req d).1 = users d
      ∧ users_id_seq (app_handle L now r req d).1 = users_id_seq d
  | DELETE_workouts_id =>
      workouts (app_handle L now r req d).1 `sublist_of` workouts d
      ∧ users (app_handle L now r req d).1 = users d
      ∧ users_id_seq (app_handle L now r req d).1 = users_id_seq d
      ∧ workouts_id_seq (app_handle L now r req d).1 = workouts_id_seq d
  end.
Proof.
  destruct r; simpl.
  - destruct (register_frame L now req d) as (? & ? & ? & _). done.
  - by rewrite login_cases.
  - destruct (authMiddleware_cases L req (λ userId, get_workouts L userId) d)
      as [->|[->|[userId ->]]]; try done.
  - destruct (authMiddleware_cases L req
                (λ userId, post_workouts L now userId req) d)
      as [->|[->|[userId ->]]]; try done.
    destruct (post_workouts_frame L now userId req d) as (? & ? & ? & _). done.
  - destruct (authMiddleware_cases L req (λ userId, delete_workouts L userId req) d)
      as [->|[->|[userId ->]]]; try done.
    destruct (delete_workouts_frame L userId req d) as (? & ? & ? & ? & _). done.
Qed.

(** ** Listings of other users *)

Lemma filter_filter_other (P Q : workout_row → Prop)
    `{∀ w, Decision (P w)} `{∀ w, Decision (Q w)} (l : list workout_row) :
  (∀ w, P w → Q w) → filter P (filter Q l) = filter P l.
Proof.
  intros HPQ. induction l as [|w l IH]; [done|].
  rewrite (filter_cons Q). destruct (decide (Q w)) as [Hq|Hq].
  - rewrite !filter_cons. destruct (decide (P w)); by rewrite IH.
  - rewrite IH, filter_cons_False; [done|]. intros Hp. by apply Hq, HPQ.
Qed.

(** X4: what a user sees in the listing does not depend on what another
    user does: after any creation request and after any delete request of a
    user [u], the listing of a user [u'] other than [u] is answered exactly
    as before. *)
Theorem listing_unaffected_by_others
    (L : Libs) (now u u' : Z) (req : request) (d : db) :
  u ≠ u' →
  (get_workouts L u' (post_workouts L now u req d).1).2
  = (get_workouts L u' d).2
  ∧ (get_workouts L u' (delete_workouts L u req d).1).2
    = (get_workouts L u' d).2.
Proof.
  intros Hne. rewrite !get_workouts_rows. simpl. split.
  - rewrite post_workouts_cases. cbv zeta.
    destruct (_ || _); [done|].
    destruct (workout_values _ _ _ _ _) as [values|]; [|done].
    destruct (new_workout_row _ _ _ _ _) as [row|e] eqn:Hrow; [|done].
    apply new_workout_row_Ok in Hrow as (_ & Hu & _). simpl.
    rewrite filter_app, (filter_singleton _ row []).
    destruct (decide (w_user_id row = u')); [congruence|].
    by rewrite app_nil_r.
  - rewrite delete_workouts_cases.
    destruct (pg_int4in L (params_id req)) as [i|e]; [|done]. simpl.
    rewrite filter_filter_other; [done|].
    intros w Hw [_ Hu]. congruence.
Qed.

(** ** Registration, then the next request *)

Lemma user_values_Ok un em ph a b c :
  user_values un em ph = Ok (a, b, c) →
  res_bind (column text_in un) (column (varchar 50)) = Ok a
  ∧ res_bind (column text_in em) (column (varchar 100)) = Ok b
  ∧ res_bind (column text_in ph) (column (varchar 255)) = Ok c.
Proof.
  unfold user_values. intros H.
  destruct (column text_in un) as [un1|]; simpl in H |- *; [|done].
  destruct (column text_in em) as [em1|]; simpl in H |- *; [|done].
  destruct (column text_in ph) as [ph1|]; simpl in H |- *; [|done].
  destruct (column (varchar 50) un1) as [un2|]; simpl in H; [|done].
  destruct (column (varchar 100) em1) as [em2|]; simpl in H; [|done].
  destruct (column (varchar 255) ph1) as [ph2|]; simpl in H; [|done].
  by injection H as -> -> ->.
Qed.

Lemma column_varchar_in_Some n s s' :
  res_bind (column text_in (Some s)) (column (varchar n)) = Ok (Some s') →
  varchar_in n s = Ok s'.
Proof.
  unfold varchar_in. simpl. destruct (text_in s) as [s1|]; simpl; [|done].
  destruct (varchar n s1); simpl; [|done]. by intros [= ->].
Qed.

Lemma register_created L now req d d1 tok usr :
  register L now req d = (d1, res_json (Auth tok usr)) →
  ∃ row h values,
    negb (truthy (prop "username" (body req)))
    || negb (truthy (prop "email" (body req)))
    || negb (truthy (prop "password" (body req))) = false
    ∧ bcrypt_hash L (prop "password" (body req)) 10 = Some h
    ∧ user_values (prepareValue L (prop "username" (body req)))
        (prepareValue L (prop "email" (body req))) (Some h) = Ok values
    ∧ new_user_row now (users_id_seq d + 1) (users d) values = Ok row
    ∧ d1 = with_users d (users d ++ [row]) (users_id_seq d + 1)
    ∧ jwt_sign L (u_id row) (JWT_SECRET L) "7d" = Some tok
    ∧ usr = {| id := u_id row; username := u_username row;
               email := u_email row |}.
Proof.
  rewrite register_cases. cbv zeta.
  destruct (_ || _); [done|].
  destruct (bcrypt_hash L _ _) as [h|]; [|done].
  destruct (user_values _ _ _) as [values|] eqn:Hv; [|done].
  destruct (new_user_row _ _ _ _) as [row|e] eqn:Hrow.
  - destruct (jwt_sign L _ _ _) as [token|] eqn:Hs; [|done].
    intros [= <- <- <-]. by exists row, h, values.
  - by destruct (decide _).
Qed.

(** X5: once a registration has succeeded, the same registration sent again
    is answered 400 "Username or email already exists", at whatever time,
    and adds no row. *)
Theorem register_twice
    (L : Libs) (now now' : Z) (req : request) (d d1 : db) (tok : string)
    (usr : user_json) :
  register L now req d = (d1, res_json (Auth tok usr)) →
  (register L now' req d1).2
  = res_status_json 400 (Error "Username or email already exists")
  ∧ users (register L now' req d1).1 = users d1.
Proof.
  intros (row & h & values & Hf & Hh & Hv & Hrow & -> & _ & _)%register_created.
  rewrite register_cases. cbv zeta. rewrite Hf, Hh, Hv. simpl.
  apply new_user_row_Ok in Hrow as (_ & _ & -> & _).
  unfold new_user_row. simpl.
  rewrite bool_decide_true; [done|].
  rewrite fmap_app, elem_of_app. right. apply list_elem_of_here.
Qed.

(** X6: a user who registered can log in.  After a successful registration
    whose email is a string of at most 100 characters and whose hash fits
    its column and verifies the password, a login with the same email and
    password is answered 200 with the same user object and a token signed
    for the same id. *)
Theorem register_then_login
    (L : Libs) (now : Z) (req req' : request) (d d1 : db) (tok : string)
    (usr : user_json) (e : string) :
  db_ok d →
  register L now req d = (d1, res_json (Auth tok usr)) →
  prop "email" (body req) = JString e → (String.length e ≤ 100)%nat →
  (∀ h, bcrypt_hash L (prop "password" (body req)) 10 = Some h →
        (String.length h ≤ 255)%nat
        ∧ bcrypt_compare L (prop "password" (body req)) h = Some true) →
  prop "email" (body req') = JString e →
  prop "password" (body req') = prop "password" (body req) →
  ∃ tok',
    jwt_sign L (id usr) (JWT_SECRET L) "7d" = Some tok'
    ∧ login L req' d1 = (d1, res_json (Auth tok' usr)).
Proof.
  intros Hd Hreg He Hel Hlib He' Hp'.
  pose proof (register_db_ok L now req d Hd) as Hd1. rewrite Hreg in Hd1.
  apply register_created in Hreg
    as (row & h & values & _ & Hh & Hv & Hrow & -> & Hs & ->).
  destruct (Hlib h Hh) as [Hhl Hcmp].
  apply new_user_row_Ok in Hrow as (_ & _ & -> & _).
  apply user_values_Ok in Hv as (_ & Hem & Hph).
  rewrite He in Hem. simpl prepareValue in Hem.
  apply column_varchar_in_Some, varchar_in_Ok in Hem as [Hez Hem].
  apply column_varchar_in_Some, varchar_in_Ok in Hph as [_ Hph].
  rewrite varchar_fits in Hem by done. rewrite varchar_fits in Hph by done.
  injection Hem as Hem. injection Hph as Hph.
  exists tok. split; [done|].
  rewrite login_cases, He', Hp'. simpl prepareValue. cbv iota.
  rewrite Hez, Hem. simpl users.
  rewrite (filter_unique_key u_email (users d ++ [row]) row).
  - rewrite <- Hph, Hcmp. by rewrite Hs.
  - apply (users_email_key _ Hd1).
  - apply elem_of_app. right. apply list_elem_of_here.
Qed.

(** X7: the token of a successful registration or login opens the gate for
    the user it was issued to.  When the token signed for that id verifies
    to it, is not empty and contains no blank, a request carrying the
    header "Bearer token" reaches the handler with the user's id, and the
    id is that of a row of [users]. *)
Theorem issued_token_authenticates
    (L : Libs) (now : Z) (req req' : request) (d d1 d' : db) (tok : string)
    (usr : user_json) (next : Z → handler) :
  register L now req d = (d1, res_json (Auth tok usr))
  ∨ login L req d = (d1, res_json (Auth tok usr)) →
  (∀ t, jwt_sign L (id usr) (JWT_SECRET L) "7d" = Some t →
        jwt_verify L t (JWT_SECRET L) = Some (id usr)) →
  tok ≠ "" → occurs " " tok = false →
  headers_authorization req' = Some ("Bearer " +:+ tok) →
  authMiddleware L req' next d' = next (id usr) d'
  ∧ id usr ∈ u_id <$> users d1.
Proof.
  intros Hissued Hv Hne Hsp Hh.
  assert (jwt_sign L (id usr) (JWT_SECRET L) "7d" = Some tok
          ∧ id usr ∈ u_id <$> users d1) as [Htok Hin].
  { destruct Hissued as [Hreg|Hlog].
    - apply register_created in Hreg
        as (row & h & values & _ & _ & _ & _ & -> & Hs & ->).
      split; [done|]. simpl. rewrite fmap_app, elem_of_app. right.
      apply list_elem_of_here.
    - rewrite login_cases in Hlog.
      destruct (prepareValue L _) as [e|]; [|by injection Hlog].
      destruct (occurs "000" e); [by injection Hlog|].
      destruct (filter _ (users d)) as [|user rest] eqn:Hf;
        [by injection Hlog|].
      destruct (bcrypt_compare L _ _) as [[]|]; try (by injection Hlog).
      destruct (jwt_sign L (u_id user) _ _) as [token|] eqn:Hs;
        [|by injection Hlog].
      injection Hlog as <- <- <-. split; [done|]. simpl.
      apply list_elem_of_fmap_2.
      assert (user ∈ filter (λ u, u_email u = e) (users d)) as Hu
        by (rewrite Hf; apply list_elem_of_here).
      by apply list_elem_of_filter in Hu as [_ Hu]. }
  split; [|done].
  assert (bearer_token req' = JString tok) as Hb
    by (by apply (bearer_token_scheme req' "Bearer" tok)).
  unfold authMiddleware. rewrite Hb, (truthy_string tok Hne). simpl.
  by rewrite (Hv tok Htok).
Qed.

(** ** Ids of workouts *)

Lemma post_workouts_seq L now userId req d :
  workouts_id_seq d ≤ workouts_id_seq (post_workouts L now userId req d).1
  ∧ ∀ d' w, post_workouts L now userId req d = (d', res_json (Workout w)) →
            w_id w = workouts_id_seq d + 1
            ∧ workouts_id_seq d' = workouts_id_seq d + 1.
Proof.
  rewrite post_workouts_cases. cbv zeta.
  destruct (_ || _); [split; [simpl; lia|done]|].
  destruct (workout_values _ _ _ _ _) as [values|];
    [|split; [simpl; lia|done]].
  destruct (new_workout_row _ _ _ _ _) as [row|e] eqn:Hrow; simpl;
    (split; [lia|]); [|done].
  intros d' w [= <- <-]. apply new_workout_row_Ok in Hrow as (? & _). done.
Qed.

Lemma app_handle_workouts_seq L now r req d :
  workouts_id_seq d ≤ workouts_id_seq (app_handle L now r req d).1.
Proof.
  pose proof (Hpost := post_workouts_seq L now).
  destruct r; simpl.
  - destruct (register_frame L now req d) as (_ & -> & _). lia.
  - rewrite login_cases. simpl. lia.
  - destruct (authMiddleware_cases L req (λ userId, get_workouts L userId) d)
      as [->|[->|[userId ->]]]; simpl; lia.
  - destruct (authMiddleware_cases L req
                (λ userId, post_workouts L now userId req) d)
      as [->|[->|[userId ->]]]; simpl; try lia.
    apply Hpost.
  - destruct (authMiddleware_cases L req (λ userId, delete_workouts L userId req) d)
      as [->|[->|[userId ->]]]; simpl; try lia.
    destruct (delete_workouts_frame L userId req d) as (_ & _ & -> & _). lia.
Qed.

Lemma run_workouts_seq L reqs d :
  workouts_id_seq d ≤ workouts_id_seq (run L reqs d).
Proof.
  induction reqs as [|[[now r] req] reqs IH] using rev_ind; [simpl; lia|].
  rewrite run_snoc.
  pose proof (app_handle_workouts_seq L now r req (run L reqs d)). lia.
Qed.

(** X8: an id given to a workout is never given out again.  Whatever
    requests are handled after a workout was created, deletes included, a
    workout created later has a greater id. *)
Theorem workout_ids_never_reused
    (L : Libs) (now now' u u' : Z) (req req' : request) (d d1 d2 : db)
    (w w' : workout_row) (reqs : list (Z * route * request)) :
  post_workouts L now u req d = (d1, res_json (Workout w)) →
  post_workouts L now' u' req' (run L reqs d1) = (d2, res_json (Workout w')) →
  w_id w < w_id w'.
Proof.
  intros [Hw Hd1]%post_workouts_seq [Hw' _]%post_workouts_seq.
  pose proof (run_workouts_seq L reqs d1). lia.
Qed.

(** X13: a delete sent twice.  When the id of the path reads as an integer,
    the second of two identical delete requests is answered 404 "Workout
    not found" and leaves the store as the first one left it. *)
Theorem delete_twice (L : Libs) (userId i : Z) (req : request) (d : db) :
  pg_int4in L (params_id req) = Ok i →
  delete_workouts L userId req (delete_workouts L userId req d).1
  = ((delete_workouts L userId req d).1,
     res_status_json 404 (Error "Workout not found")).
Proof.
  intros Hi. rewrite !delete_workouts_cases, Hi. simpl.
  assert (filter (hit i userId)
            (filter (λ w, ¬ hit i userId w) (workouts d)) = []) as Hnone.
  { apply elem_of_nil_inv.
    intros w [Hh [Hn _]%list_elem_of_filter]%list_elem_of_filter. done. }
  rewrite Hnone. simpl. f_equal.
  by rewrite (filter_none_hit (hit i userId) _ Hnone).
Qed.

(** ** The pieces of the authorization header *)

Lemma split_nonempty sep s : ∃ piece pieces, JS.split sep s = piece :: pieces.
Proof.
  induction s as [|c s (piece & pieces & IH)]; simpl; [by eauto|].
  destruct (Ascii.eqb c sep); [by eauto|]. rewrite IH. by eauto.
Qed.

(** X12: [split] cuts at every separator and nowhere else: no piece
    contains the separator, and the pieces joined by the separator are the
    string that was split. *)
Theorem split_join (sep : ascii) (s : string) :
  join sep (JS.split sep s) = s
  ∧ Forall (λ piece, occurs sep piece = false) (JS.split sep s).
Proof.
  induction s as [|c s [IHj IHf]]; simpl; [by split; [|repeat constructor]|].
  destruct (split_nonempty sep s) as (piece & pieces & Hs).
  rewrite Hs in IHj, IHf |- *.
  destruct (Ascii.eqb_spec c sep) as [->|Hc].
  - split; [|by constructor].
    change (join sep ("" :: piece :: pieces))
      with ("" +:+ String sep (join sep (piece :: pieces))).
    by rewrite IHj.
  - apply Forall_cons in IHf as [Hp Hps]. split.
    + destruct pieces as [|piece' pieces]; [simpl in *; by rewrite IHj|].
      change (join sep (String c piece :: piece' :: pieces))
        with (String c (join sep (piece :: piece' :: pieces))).
      by rewrite IHj.
    + constructor; [|done]. simpl. rewrite Hp.
      by destruct (Ascii.eqb_spec c sep).
Qed.

Lemma authMiddleware_token L req req' next d :
  bearer_token req = bearer_token req' →
  authMiddleware L req next d = authMiddleware L req' next d.
Proof. intros Hb. unfold authMiddleware. by rewrite Hb. Qed.

(** X10: the gate never looks at the first word of the header.  A header
    "scheme token", whatever the scheme, and a header with further words
    after the token are handled exactly as "Bearer token", for every token
    without a blank. *)
Theorem authMiddleware_ignores_scheme
    (L : Libs) (req req' : request) (next : Z → handler) (d : db)
    (scheme token rest : string) :
  occurs " " scheme = false → occurs " " token = false →
  headers_authorization req = Some (scheme +:+ String " " token)
  ∨ headers_authorization req
    = Some (scheme +:+ String " " (token +:+ String " " rest)) →
  headers_authorization req' = Some ("Bearer " +:+ token) →
  authMiddleware L req next d = authMiddleware L req' next d.
Proof.
  intros Hs Ht Hh Hh'. apply authMiddleware_token.
  rewrite (bearer_token_scheme req' "Bearer" token) by done.
  destruct Hh as [Hh|Hh].
  - by apply (bearer_token_scheme req scheme token).
  - unfold bearer_token. rewrite Hh. by rewrite !split_at_sep.
Qed.

(** X11: headers that carry no token.  A header without a blank (a bare
    token, say), a header that ends after the blank, and a header with two
    blanks after the first word are all answered 401 "No token provided",
    and the handler does not run. *)
Theorem authMiddleware_no_second_piece
    (L : Libs) (req : request) (next : Z → handler) (d : db)
    (scheme rest : string) :
  occurs " " scheme = false →
  headers_authorization req = Some scheme
  ∨ headers_authorization req = Some (scheme +:+ " ")
  ∨ headers_authorization req = Some (scheme +:+ String " " (String " " rest)) →
  authMiddleware L req next d
  = (d, res_status_json 401 (Error "No token provided")).
Proof.
  intros Hs Hh.
  assert (truthy (bearer_token req) = false) as Hf.
  { unfold bearer_token. destruct Hh as [->|[->| ->]].
    - by rewrite split_no_sep.
    - by rewrite split_at_sep.
    - by rewrite split_at_sep. }
  unfold authMiddleware. by rewrite Hf.
Qed.

(** ** The further properties on the sample requests *)

Lemma failed_request_changes_no_row_witness :
  workouts (app_handle Demo.libs 7 POST_auth_register Demo.alice Demo.d1).1
  = workouts Demo.d1
  ∧ users (app_handle Demo.libs 7 POST_auth_register Demo.alice Demo.d1).1
    = users Demo.d1.
Proof.
  destruct (failed_request_changes_no_row Demo.libs 7 POST_auth_register
              Demo.alice Demo.d1) as [Hw Hu].
  - vm_compute. discriminate.
  - split; [exact Hw|].
    destruct Hu as [Hu|(_ & Hanswer & _)]; [exact Hu|].
    vm_compute in Hanswer. discriminate Hanswer.
Defined.

(** The exception of X2 on a sample: with JWT_SECRET unset the registration
    of alice is answered 500 and her row is in the table all the same. *)
Lemma register_signing_failure_keeps_row :
  app_handle Demo.libs_unset 5 POST_auth_register Demo.alice empty_db
  = (Demo.d1, res_status_json 500 (Error "Registration failed"))
  ∧ users Demo.d1 ≠ users empty_db.
Proof. split; [reflexivity|discriminate]. Qed.

Lemma listing_unaffected_by_others_witness :
  (get_workouts Demo.libs 2 Demo.d3).2 = (get_workouts Demo.libs 2 Demo.d2).2
  ∧ (get_workouts Demo.libs 2
       (delete_workouts Demo.libs 1
          (Demo.delete_request "jwt1" "1") Demo.d3).1).2
    = (get_workouts Demo.libs 2 Demo.d3).2.
Proof.
  assert (1 ≠ 2) as Hne by discriminate. split.
  - apply (listing_unaffected_by_others Demo.libs 20 1 2 Demo.squat Demo.d2 Hne).
  - apply (listing_unaffected_by_others Demo.libs 20 1 2
             (Demo.delete_request "jwt1" "1") Demo.d3 Hne).
Defined.

Lemma register_twice_witness :
  (register Demo.libs 7 Demo.alice Demo.d1).2
  = res_status_json 400 (Error "Username or email already exists")
  ∧ users (register Demo.libs 7 Demo.alice Demo.d1).1 = users Demo.d1.
Proof.
  apply (register_twice Demo.libs 5 7 Demo.alice empty_db Demo.d1 "jwt1"
           {| id := 1; username := "alice"; email := "a@x.com" |}).
  reflexivity.
Defined.

Lemma register_then_login_witness :
  ∃ tok',
    jwt_sign Demo.libs 1 (JWT_SECRET Demo.libs) "7d" = Some tok'
    ∧ login Demo.libs (Demo.login_request "a@x.com" "pw123456") Demo.d1
      = (Demo.d1, res_json (Auth tok'
           {| id := 1; username := "alice"; email := "a@x.com" |})).
Proof.
  apply (register_then_login Demo.libs 5 Demo.alice _ empty_db Demo.d1 "jwt1"
           {| id := 1; username := "alice"; email := "a@x.com" |} "a@x.com").
  - apply db_ok_empty.
  - reflexivity.
  - reflexivity.
  - simpl. lia.
  - intros h Hh. vm_compute in Hh. injection Hh as <-.
    split; [simpl; lia|reflexivity].
  - reflexivity.
  - reflexivity.
Defined.

Lemma issued_token_authenticates_witness :
  authMiddleware Demo.libs (Demo.delete_request "jwt1" "1")
    (get_workouts Demo.libs) Demo.d3
  = get_workouts Demo.libs 1 Demo.d3
  ∧ 1 ∈ u_id <$> users Demo.d1.
Proof.
  apply (issued_token_authenticates Demo.libs 5 Demo.alice
           (Demo.delete_request "jwt1" "1") empty_db Demo.d1 Demo.d3 "jwt1"
           {| id := 1; username := "alice"; email := "a@x.com" |}
           (get_workouts Demo.libs)).
  - left. reflexivity.
  - intros t [= <-]. reflexivity.
  - discriminate.
  - reflexivity.
  - reflexivity.
Defined.

Lemma workout_ids_never_reused_witness :
  w_id Demo.squat_row
  < w_id {| w_id := 2; w_user_id := 1; w_exercise_id := "squat";
            w_exercise_name := "Squat"; w_sets_data := Demo.squat_sets;
            w_workout_timestamp := "2024-01-01T10:00:00"; w_created_at := 40 |}.
Proof.
  eapply (workout_ids_never_reused Demo.libs 20 40 1 1 Demo.squat Demo.squat
            Demo.d2 Demo.d3 _ Demo.squat_row _
            [(30, DELETE_workouts_id, Demo.delete_request "jwt1" "1")]).
  - reflexivity.
  - reflexivity.
Defined.

Lemma login_compare_throws_witness :
  login Demo.libs (Demo.json_request [("email", JString "a@x.com")]) Demo.d2
  = (Demo.d2, res_status_json 500 (Error "Login failed")).
Proof.
  apply (login_compare_throws Demo.libs _ Demo.d2
           {| u_id := 1; u_username := "alice"; u_email := "a@x.com";
              u_password_hash := "$2a$10$pw123456"; u_created_at := 5 |}).
  - apply db_ok_d2.
  - apply list_elem_of_here.
  - reflexivity.
  - reflexivity.
Defined.

Lemma authMiddleware_ignores_scheme_witness :
  authMiddleware Demo.libs
    {| headers_authorization := Some "Basic jwt1"; body := ∅; params_id := "1" |}
    (get_workouts Demo.libs) Demo.d3
  = authMiddleware Demo.libs (Demo.delete_request "jwt1" "1")
      (get_workouts Demo.libs) Demo.d3.
Proof.
  apply (authMiddleware_ignores_scheme Demo.libs _ _ (get_workouts Demo.libs)
           Demo.d3
           "Basic" "jwt1" "").
  - reflexivity.
  - reflexivity.
  - left. reflexivity.
  - reflexivity.
Defined.

Lemma authMiddleware_no_second_piece_witness :
  authMiddleware Demo.libs
    {| headers_authorization := Some "jwt1"; body := ∅; params_id := "1" |}
    (get_workouts Demo.libs) Demo.d3
  = (Demo.d3, res_status_json 401 (Error "No token provided")).
Proof.
  apply (authMiddleware_no_second_piece Demo.libs _ (get_workouts Demo.libs)
           Demo.d3
           "jwt1" "").
  - reflexivity.
  - left. reflexivity.
Defined.

Lemma delete_twice_witness :
  delete_workouts Demo.libs 1 (Demo.delete_request "jwt1" "1")
    (delete_workouts Demo.libs 1 (Demo.delete_request "jwt1" "1") Demo.d3).1
  = ((delete_workouts Demo.libs 1 (Demo.delete_request "jwt1" "1") Demo.d3).1,
     res_status_json 404 (Error "Workout not found")).
Proof.
  apply (delete_twice Demo.libs 1 1 (Demo.delete_request "jwt1" "1") Demo.d3).
  reflexivity.
Defined.

(** ** From registration to the first workout *)

Lemma authMiddleware_bearer L req next d tok userId :
  headers_authorization req = Some ("Bearer " +:+ tok) →
  tok ≠ "" → occurs " " tok = false →
  jwt_verify L tok (JWT_SECRET L) = Some userId →
  authMiddleware L req next d = next userId d.
Proof.
  intros Hh Hne Hsp Hv.
  assert (bearer_token req = JString tok) as Hb
    by (by apply (bearer_token_scheme req "Bearer" tok)).
  unfold authMiddleware. rewrite Hb, (truthy_string tok Hne). simpl.
  by rewrite Hv.
Qed.

(** X14: a newly registered user can log a workout at once.  When the token
    of a successful registration verifies to the id it was signed for, is
    not empty and has no blank, a creation request with the header "Bearer
    token" and a submission whose strings fit their columns and hold no
    character U+0000, and whose serialized [sets] the server reads as the
    document [doc], is answered 200 with a row owned by the new user that
    holds [doc], and that row is appended to the table. *)
Theorem registered_user_logs_workout
    (L : Libs) (now now' : Z) (req req' : request) (d d1 : db) (tok : string)
    (usr : user_json) (eid ename ts : string) (xs : list jsval) (doc : jsval) :
  register L now req d = (d1, res_json (Auth tok usr)) →
  (∀ t, jwt_sign L (id usr) (JWT_SECRET L) "7d" = Some t →
        jwt_verify L t (JWT_SECRET L) = Some (id usr)) →
  tok ≠ "" → occurs " " tok = false →
  headers_authorization req' = Some ("Bearer " +:+ tok) →
  body req' !! "exercise_id" = Some (JString eid) → eid ≠ "" →
  occurs "000" eid = false → (String.length eid ≤ 100)%nat →
  body req' !! "exercise_name" = Some (JString ename) → ename ≠ "" →
  occurs "000" ename = false → (String.length ename ≤ 100)%nat →
  body req' !! "sets" = Some (JArray xs) →
  pg_jsonb_in L (JSON_stringify L (JArray xs)) = Ok doc →
  body req' !! "workout_timestamp" = Some (JString ts) →
  occurs "000" ts = false → (String.length ts ≤ 50)%nat →
  ∃ w,
    app_handle L now' POST_workouts req' d1
    = (with_workouts d1 (workouts d1 ++ [w]) (workouts_id_seq d1 + 1),
       res_json (Workout w))
    ∧ w_user_id w = id usr ∧ w_exercise_id w = eid
    ∧ w_exercise_name w = ename ∧ w_sets_data w = doc
    ∧ w_workout_timestamp w = ts.
Proof.
  intros Hreg Hv Hne Hsp Hh He He0 Hez Hel Hn Hn0 Hnz Hnl Hs Hdoc Ht Htz Htl.
  apply register_created in Hreg
    as (row & h & values & _ & _ & _ & _ & -> & Hsign & ->).
  simpl in Hv. specialize (Hv tok Hsign). simpl app_handle.
  rewrite (authMiddleware_bearer L req' _ _ _ (u_id row) Hh Hne Hsp Hv).
  eexists. split.
  - apply (post_workouts_valid L now' (u_id row) req' _ eid ename xs ts doc);
      try done.
    simpl. rewrite fmap_app, elem_of_app. right. apply list_elem_of_here.
  - done.
Qed.

Lemma registered_user_logs_workout_witness :
  ∃ w,
    app_handle Demo.libs 20 POST_workouts
      {| headers_authorization := Some "Bearer jwt1";
         body := body Demo.squat; params_id := "" |} Demo.d1
    = (with_workouts Demo.d1 (workouts Demo.d1 ++ [w])
         (workouts_id_seq Demo.d1 + 1),
       res_json (Workout w))
    ∧ w_user_id w = 1 ∧ w_exercise_id w = "squat"
    ∧ w_exercise_name w = "Squat"
    ∧ w_sets_data w = Demo.squat_sets
    ∧ w_workout_timestamp w = "2024-01-01T10:00:00".
Proof.
  apply (registered_user_logs_workout Demo.libs 5 20 Demo.alice _ empty_db
           Demo.d1 "jwt1" {| id := 1; username := "alice"; email := "a@x.com" |}
           "squat" "Squat" "2024-01-01T10:00:00"
           [JObject [("reps", JNumber (S754_finite false 5 0));
                     ("weight", JNumber (S754_finite false 100 0))]]);
    try reflexivity; try discriminate; try (simpl; lia).
  intros t [= <-]. reflexivity.
Defined.
